(** * nowcasting_metrics: the MAE metrics of [nowcasting_metrics/metrics/mae.py]

    A shallow embedding of [nowcasting_metrics/metrics/mae.py] and
    [nowcasting_metrics/utils.py].

    The Python code builds SQL queries with SQLAlchemy and lets the database
    evaluate them.  The embedding keeps that shape:

    - the database session is a record of tables (lists of rows);
    - a query is a [FROM] list, a list of [WHERE] predicates and the
      expression under [func.avg]; [Query.all] evaluates it;
    - Python functions that touch the session live in a state-and-exception
      monad [Py]: an exception leaves the session as it was when it was
      raised, as a SQLAlchemy session does;
    - SQL double precision values are [Float]: NaN, the two infinities and
      finite numbers.  Finite arithmetic is exact (rationals kept in lowest
      terms), the special values follow IEEE 754.  Rounding is not modelled;
      no statement below depends on the size of a rounding error. *)

From Stdlib Require Import List ZArith QArith Qabs Qreduction String Bool Lia.
Import ListNotations.

Local Open Scope Z_scope.

(** ** SQL double precision values *)

Inductive Float : Type :=
| FNaN
| FInf (negative : bool)
| FNum (q : Q).

Definition Qsign (q : Q) : bool := (Qnum q <? 0)%Z.

Definition fadd (x y : Float) : Float :=
  match x, y with
  | FNaN, _ | _, FNaN => FNaN
  | FInf s, FInf s' => if Bool.eqb s s' then FInf s else FNaN
  | FInf s, FNum _ | FNum _, FInf s => FInf s
  | FNum a, FNum b => FNum (Qred (a + b))
  end.

Definition fsub (x y : Float) : Float :=
  match x, y with
  | FNaN, _ | _, FNaN => FNaN
  | FInf s, FInf s' => if Bool.eqb s s' then FNaN else FInf s
  | FInf s, FNum _ => FInf s
  | FNum _, FInf s => FInf (negb s)
  | FNum a, FNum b => FNum (Qred (a - b))
  end.

(** Division.  The only divisors in this program are the literal [1000] and
    the number of aggregated rows (at least one), so the divisor zero is
    never reached; it is mapped to NaN here. *)
Definition fdiv (x y : Float) : Float :=
  match x, y with
  | FNaN, _ | _, FNaN => FNaN
  | FInf _, FInf _ => FNaN
  | FInf s, FNum b => if Qeq_bool b 0 then FNaN else FInf (xorb s (Qsign b))
  | FNum _, FInf _ => FNum 0
  | FNum a, FNum b => if Qeq_bool b 0 then FNaN else FNum (Qred (a / b))
  end.

Definition fabs (x : Float) : Float :=
  match x with
  | FNaN => FNaN
  | FInf _ => FInf false
  | FNum q => FNum (Qred (Qabs q))
  end.

(** [x > y]; false as soon as one side is NaN. *)
Definition fgt (x y : Float) : bool :=
  match x, y with
  | FNaN, _ | _, FNaN => false
  | FInf true, _ => false
  | FInf false, FInf false => false
  | FInf false, _ => true
  | FNum _, FInf s => s
  | FNum a, FNum b => negb (Qle_bool a b)
  end.

Definition fsum (l : list Float) : Float := fold_left fadd l (FNum 0).

(** SQL [avg]: NULL ([None]) over no rows, the sum over the count otherwise. *)
Definition favg (l : list Float) : option Float :=
  match l with
  | [] => None
  | _ :: _ => Some (fdiv (fsum l) (FNum (inject_Z (Z.of_nat (List.length l)))))
  end.

Definition is_finite (x : Float) : bool :=
  match x with FNum _ => true | _ => false end.

(** ** The rows of [nowcasting_datamodel] that the metrics read and write *)

Definition datetime := Z.   (* minutes since an epoch *)

Module LocationSQL.
Record t : Type := mk { id : Z; gsp_id : Z }.
End LocationSQL.

Module GSPYieldSQL.
Record t : Type := mk {
  id : Z;
  datetime_utc : datetime;
  solar_generation_kw : Float;
  regime : string;
  location_id : Z   (* the [location] relationship *)
}.
End GSPYieldSQL.

Module ForecastValueLatestSQL.
Record t : Type := mk {
  target_time : datetime;
  expected_power_generation_megawatts : Float;
  gsp_id : Z
}.
End ForecastValueLatestSQL.

Module ForecastValueSQL.
Record t : Type := mk {
  uuid : Z;
  target_time : datetime;
  expected_power_generation_megawatts : Float;
  created_utc : datetime;
  gsp_id : Z   (* of the location of the forecast the value belongs to *)
}.
End ForecastValueSQL.

Module Metric.
Record t : Type := mk { name : string; description : string }.
End Metric.

Module DatetimeInterval.
Record t : Type := mk { start_datetime_utc : datetime; end_datetime_utc : datetime }.
End DatetimeInterval.

Module MetricValueSQL.
Record t : Type := mk {
  value : option Float;
  number_of_data_points : Z;
  metric : Metric.t;
  datetime_interval : DatetimeInterval.t;
  location : option LocationSQL.t;
  forecast_horizon_minutes : option Z
}.
End MetricValueSQL.

(** ** The session *)

Record Session : Type := mkSession {
  forecast_value_latest : list ForecastValueLatestSQL.t;
  forecast_value : list ForecastValueSQL.t;
  gsp_yield : list GSPYieldSQL.t;
  location : list LocationSQL.t;
  metric : list Metric.t;
  datetime_interval : list DatetimeInterval.t;
  metric_value : list MetricValueSQL.t
}.

Inductive Exn : Type :=
| TypeError (msg : string)
| IndexError.

Inductive Outcome (A : Type) : Type :=
| Returned (a : A)
| Raised (e : Exn).
Arguments Returned {A} a.
Arguments Raised {A} e.

(** A Python computation on a session: the session after it, and what it
    returned or raised. *)
Definition Py (A : Type) : Type := Session -> Session * Outcome A.

Definition ret {A} (a : A) : Py A := fun s => (s, Returned a).

Definition bind {A B} (c : Py A) (k : A -> Py B) : Py B :=
  fun s =>
    match c s with
    | (s', Returned a) => k a s'
    | (s', Raised e) => (s', Raised e)
    end.

Definition raise {A} (e : Exn) : Py A := fun s => (s, Raised e).

Definition get_session : Py Session := fun s => (s, Returned s).

Declare Scope py_scope.
Delimit Scope py_scope with py.
Notation "x <- c ;; k" := (bind c (fun x => k))
  (at level 61, c at next level, right associativity) : py_scope.
Notation "c ;;; k" := (bind c (fun _ => k))
  (at level 61, right associativity) : py_scope.

(** [for x in l: body(x)]; what the body returns is dropped. *)
Fixpoint for_ {X A} (l : list X) (body : X -> Py A) : Py unit :=
  match l with
  | [] => ret tt
  | x :: l' => bind (body x) (fun _ => for_ l' body)
  end.

(** Python's [range(start, stop, step)] for a positive step. *)
Definition range (start stop step : Z) : list Z :=
  map (fun i => start + step * Z.of_nat i)
      (seq 0 (Z.to_nat ((stop - start + step - 1) / step))).

(** ** Queries

    [session.query(func.avg(e), func.count(c))] followed by [join] and
    [filter] calls.  The columns are not nullable in this model, so
    [func.count(c)] counts the rows and [func.avg(e)] averages [e] over all
    of them. *)

(** [JOIN right ON on] *)
Definition inner_join {R S} (left : list R) (right : list S) (on : R -> S -> bool)
  : list (R * S) :=
  flat_map (fun r => map (pair r) (filter (on r) right)) left.

Module Query.
Record t (R : Type) : Type := mk {
  from_ : list R;               (* the rows of the FROM clause *)
  where_ : list (R -> bool);    (* the conjuncts of the WHERE clause *)
  avg_of : R -> Float           (* the expression under [func.avg] *)
}.
Arguments mk {R} from_ where_ avg_of.
Arguments from_ {R} t.
Arguments where_ {R} t.
Arguments avg_of {R} t.

(** [query.filter(p)] *)
Definition filter_ {R} (p : R -> bool) (q : t R) : t R :=
  mk (from_ q) (where_ q ++ [p]) (avg_of q).

(** [query.join(...)]: the rows grow by the joined table. *)
Definition join {R S} (right : list S) (on : R -> S -> bool) (q : t R) : t (R * S) :=
  mk (inner_join (from_ q) right on)
     (map (fun p (rs : R * S) => p (fst rs)) (where_ q))
     (fun rs => avg_of q (fst rs)).

(** The rows that pass every WHERE conjunct. *)
Definition rows {R} (q : t R) : list R :=
  filter (fun r => forallb (fun p => p r) (where_ q)) (from_ q).

(** The result row [(avg, count)]: the average of the expression over the
    rows and the number of rows. *)
Definition aggregate {R} (q : t R) : option Float * Z :=
  (favg (map (avg_of q) (rows q)), Z.of_nat (List.length (rows q))).

(** [query.all()]: an aggregate query without GROUP BY has one result row. *)
Definition all {R} (q : t R) : list (option Float * Z) := [aggregate q].
End Query.

(** [results[0]] *)
Definition first_row {A} (results : list A) : Py A :=
  match results with
  | r :: _ => ret r
  | [] => raise IndexError
  end.

(** The two forecast tables [make_mae_query] accepts as [model]. *)
Class ForecastModel (M : Type) : Type := {
  expected_power_generation_megawatts : M -> Float;
  table : Session -> list M
}.

#[export] Instance ForecastValueLatestSQL_model : ForecastModel ForecastValueLatestSQL.t := {
  expected_power_generation_megawatts :=
    ForecastValueLatestSQL.expected_power_generation_megawatts;
  table := forecast_value_latest
}.

#[export] Instance ForecastValueSQL_model : ForecastModel ForecastValueSQL.t := {
  expected_power_generation_megawatts :=
    ForecastValueSQL.expected_power_generation_megawatts;
  table := forecast_value
}.

(** A row of [FROM model, gsp_yield JOIN location]. *)
Definition Joined (M : Type) : Type := (M * GSPYieldSQL.t * LocationSQL.t)%type.
Definition forecast_of {M} (r : Joined M) : M := fst (fst r).
Definition yield_of {M} (r : Joined M) : GSPYieldSQL.t := snd (fst r).
Definition location_of {M} (r : Joined M) : LocationSQL.t := snd r.

(** ** [nowcasting_metrics/metrics/utils.py] (not among the sources) *)

(** Modelled from the spec: the interval test shared by the views of
    [nowcasting_metrics/metrics/utils.py], which is missing; both ends are
    included. *)
Definition in_interval (di : DatetimeInterval.t) (t : datetime) : bool :=
  (DatetimeInterval.start_datetime_utc di <=? t)
  && (t <=? DatetimeInterval.end_datetime_utc di).

(** Modelled from the spec: [filter_query_on_datetime_interval] of
    [nowcasting_metrics/metrics/utils.py], which is missing.  The ground
    truth timestamp lies inside the interval, both ends included, and the
    forecast is joined on [target_time] equal to that timestamp. *)
Definition filter_query_on_datetime_interval
  (di : DatetimeInterval.t) (query : Query.t (Joined ForecastValueLatestSQL.t))
  : Query.t (Joined ForecastValueLatestSQL.t) :=
  let query :=
    Query.filter_
      (fun r => DatetimeInterval.start_datetime_utc di
                <=? GSPYieldSQL.datetime_utc (yield_of r)) query in
  let query :=
    Query.filter_
      (fun r => GSPYieldSQL.datetime_utc (yield_of r)
                <=? DatetimeInterval.end_datetime_utc di) query in
  Query.filter_
    (fun r => GSPYieldSQL.datetime_utc (yield_of r)
              =? ForecastValueLatestSQL.target_time (forecast_of r)) query.

(** Modelled from the spec: [make_pvlive_subquery] of
    [nowcasting_metrics/metrics/utils.py], which is missing.  The ground
    truth view of one site, one interval (both ends included) and one
    regime. *)
Definition make_pvlive_subquery
  (session : Session) (di : DatetimeInterval.t) (gsp_id : Z) (regime : string)
  : list GSPYieldSQL.t :=
  map fst
    (filter
       (fun yl : GSPYieldSQL.t * LocationSQL.t =>
          (LocationSQL.gsp_id (snd yl) =? gsp_id)
          && in_interval di (GSPYieldSQL.datetime_utc (fst yl))
          && String.eqb (GSPYieldSQL.regime (fst yl)) regime)
       (inner_join (gsp_yield session) (location session)
          (fun y l => LocationSQL.id l =? GSPYieldSQL.location_id y))).

(** Modelled from the spec: [make_gsp_sub_query] of
    [nowcasting_metrics/metrics/utils.py], which is missing.  The ids of the
    ground truth view of one site: timestamp inside the interval, regime
    day-after. *)
Definition make_gsp_sub_query
  (di : DatetimeInterval.t) (gsp_id : Z) (session : Session) : list Z :=
  map GSPYieldSQL.id (make_pvlive_subquery session di gsp_id "day-after").

(** Modelled from the spec: the horizon of a forecast value, its target time
    minus its creation time, for the missing [make_forecast_sub_query]. *)
Definition horizon_of (f : ForecastValueSQL.t) : Z :=
  ForecastValueSQL.target_time f - ForecastValueSQL.created_utc f.

(** Modelled from the spec: one row per target time for the missing
    [make_forecast_sub_query]; the first one in table order is kept. *)
Fixpoint distinct_on_target_time
  (seen : list datetime) (l : list ForecastValueSQL.t) : list ForecastValueSQL.t :=
  match l with
  | [] => []
  | f :: l' =>
      if existsb (Z.eqb (ForecastValueSQL.target_time f)) seen
      then distinct_on_target_time seen l'
      else f :: distinct_on_target_time (ForecastValueSQL.target_time f :: seen) l'
  end.

(** Modelled from the spec: the width of a horizon bucket of the missing
    [make_forecast_sub_query], the step of the orchestrator's loop. *)
Definition horizon_step : Z := 30.

(** Modelled from the spec: [make_forecast_sub_query] of
    [nowcasting_metrics/metrics/utils.py], which is missing.  The uuids of
    the forecast-horizon view: among the forecasts of the site whose target
    time is inside the interval and whose horizon falls into the bucket
    [[h, h + 30)], one per target time.  The spec leaves the choice inside a
    bucket open; here it is the forecast nearest to the exact horizon, the
    first in table order among equals. *)
Definition make_forecast_sub_query
  (di : DatetimeInterval.t) (forecast_horizon_minutes : Z) (gsp_id : Z)
  (session : Session) : list Z :=
  let in_bucket :=
    filter
      (fun f =>
         (ForecastValueSQL.gsp_id f =? gsp_id)
         && in_interval di (ForecastValueSQL.target_time f)
         && (forecast_horizon_minutes <=? horizon_of f)
         && (horizon_of f <? forecast_horizon_minutes + horizon_step))
      (forecast_value session) in
  let nearest :=
    filter
      (fun f =>
         forallb
           (fun g =>
              negb (ForecastValueSQL.target_time g =? ForecastValueSQL.target_time f)
              || (horizon_of f <=? horizon_of g))
           in_bucket)
      in_bucket in
  map ForecastValueSQL.uuid (distinct_on_target_time [] nearest).

(** ** [nowcasting_datamodel] readers (an external package)

    Get-or-create lookups, as the spec's external interfaces describe them. *)

Definition set_location (l : list LocationSQL.t) (s : Session) : Session :=
  mkSession (forecast_value_latest s) (forecast_value s) (gsp_yield s) l
            (metric s) (datetime_interval s) (metric_value s).

Definition set_metric (l : list Metric.t) (s : Session) : Session :=
  mkSession (forecast_value_latest s) (forecast_value s) (gsp_yield s) (location s)
            l (datetime_interval s) (metric_value s).

Definition set_datetime_interval (l : list DatetimeInterval.t) (s : Session) : Session :=
  mkSession (forecast_value_latest s) (forecast_value s) (gsp_yield s) (location s)
            (metric s) l (metric_value s).

Definition set_metric_value (l : list MetricValueSQL.t) (s : Session) : Session :=
  mkSession (forecast_value_latest s) (forecast_value s) (gsp_yield s) (location s)
            (metric s) (datetime_interval s) l.

Definition next_location_id (l : list LocationSQL.t) : Z :=
  1 + fold_right Z.max 0 (map LocationSQL.id l).

(** [get_location(session, gsp_id)]: the location of the site, created when
    the table has none. *)
Definition get_location (gsp_id : Z) : Py LocationSQL.t :=
  fun session =>
    match filter (fun l => LocationSQL.gsp_id l =? gsp_id) (location session) with
    | l :: _ => (session, Returned l)
    | [] =>
        let l := LocationSQL.mk (next_location_id (location session)) gsp_id in
        (set_location (location session ++ [l]) session, Returned l)
    end.

(** [get_metric(session, name)]: the catalog row of that name; a row created
    here has no description, since only the name is passed. *)
Definition get_metric (name : string) : Py Metric.t :=
  fun session =>
    match filter (fun m => String.eqb (Metric.name m) name) (metric session) with
    | m :: _ => (session, Returned m)
    | [] =>
        let m := Metric.mk name "" in
        (set_metric (metric session ++ [m]) session, Returned m)
    end.

Definition DatetimeInterval_eqb (a b : DatetimeInterval.t) : bool :=
  (DatetimeInterval.start_datetime_utc a =? DatetimeInterval.start_datetime_utc b)
  && (DatetimeInterval.end_datetime_utc a =? DatetimeInterval.end_datetime_utc b).

(** [get_datetime_interval(session, start_datetime_utc, end_datetime_utc)] *)
Definition get_datetime_interval (start_datetime_utc end_datetime_utc : datetime)
  : Py DatetimeInterval.t :=
  fun session =>
    let di := DatetimeInterval.mk start_datetime_utc end_datetime_utc in
    match filter (DatetimeInterval_eqb di) (datetime_interval session) with
    | d :: _ => (session, Returned d)
    | [] => (set_datetime_interval (datetime_interval session ++ [di]) session, Returned di)
    end.

(** [session.add(metric_value_sql)] *)
Definition session_add (metric_value_sql : MetricValueSQL.t) : Py unit :=
  fun session =>
    (set_metric_value (metric_value session ++ [metric_value_sql]) session, Returned tt).

(** ** [nowcasting_metrics/utils.py] *)

(** The keyword arguments of one call of [save_metric_value_to_database]
    ([session] is the state of the monad).  [forecast_horizon_minutes] is
    [Some h] when the call passes that keyword and [None] when it does not. *)
Module SaveCall.
Record t : Type := mk {
  value : option Float;
  number_of_data_points : Z;
  metric : Metric.t;
  datetime_interval : DatetimeInterval.t;
  location : option LocationSQL.t;
  forecast_horizon_minutes : option Z
}.
End SaveCall.

Definition unexpected_keyword : string :=
  "save_metric_value_to_database() got an unexpected keyword argument 'forecast_horizon_minutes'".

(** [save_metric_value_to_database].  Its parameters are [session], [value],
    [number_of_data_points], [metric], [datetime_interval] and [location]:
    a call that passes [forecast_horizon_minutes] does not bind and raises
    [TypeError] before the body runs. *)
Definition save_metric_value_to_database (call : SaveCall.t) : Py unit :=
  match SaveCall.forecast_horizon_minutes call with
  | Some _ => raise (TypeError unexpected_keyword)
  | None =>
      (metric_sql <- get_metric (Metric.name (SaveCall.metric call)) ;;
       datetime_interval_sql <-
         get_datetime_interval
           (DatetimeInterval.start_datetime_utc (SaveCall.datetime_interval call))
           (DatetimeInterval.end_datetime_utc (SaveCall.datetime_interval call)) ;;
       let metric_value_sql :=
         MetricValueSQL.mk (SaveCall.value call) (SaveCall.number_of_data_points call)
                           metric_sql datetime_interval_sql None None in
       let metric_value_sql :=
         match SaveCall.location call with
         | Some location =>
             MetricValueSQL.mk (MetricValueSQL.value metric_value_sql)
                               (MetricValueSQL.number_of_data_points metric_value_sql)
                               (MetricValueSQL.metric metric_value_sql)
                               (MetricValueSQL.datetime_interval metric_value_sql)
                               (Some location)
                               (MetricValueSQL.forecast_horizon_minutes metric_value_sql)
         | None => metric_value_sql
         end in
       session_add metric_value_sql)%py
  end.

(** ** [nowcasting_metrics/metrics/mae.py]

    The [logger.debug] calls do not touch the session and are left out. *)

Definition latest_mae : Metric.t :=
  Metric.mk "Daily Latest MAE"
    "This metric calculates the MAE for the latest OCF forecast and compares with the PVLive values. The data is from one day".

Definition mae_all_gsps : Metric.t :=
  Metric.mk "Daily Latest MAE All GSPs"
    "This metric calculates the MAE for the latest OCF forecast and compares with the PVLive values. The data is from one day. This is for all GSPs (not the national)".

Definition pvlive_mae : Metric.t :=
  Metric.mk "PVLive MAE"
    "This metric calculates the MAE for the initial estimate by PVLive and the updated estimate. The data is from one day for each GSP.".

(** [model.expected_power_generation_megawatts - GSPYieldSQL.solar_generation_kw / 1000]
    under [func.abs]. *)
Definition absolute_error (megawatts kw : Float) : Float :=
  fabs (fsub megawatts (fdiv kw (FNum 1000))).

(** [make_mae_query(session, model)]: [FROM model, gsp_yield]. *)
Definition make_mae_query (session : Session) (M : Type) `{ForecastModel M}
  : Query.t (M * GSPYieldSQL.t) :=
  Query.mk (list_prod (table session) (gsp_yield session))
           []
           (fun r => absolute_error (expected_power_generation_megawatts (fst r))
                                    (GSPYieldSQL.solar_generation_kw (snd r))).

(** [query.join(GSPYieldSQL.location)] *)
Definition join_location {M} (session : Session) (query : Query.t (M * GSPYieldSQL.t))
  : Query.t (Joined M) :=
  Query.join (location session)
             (fun r l => LocationSQL.id l =? GSPYieldSQL.location_id (snd r))
             query.

(** The query of [make_pvlive_mae] (lines 56-76): the two regime views
    joined on equal [datetime_utc]. *)
Definition make_pvlive_mae_query
  (session : Session) (datetime_interval : DatetimeInterval.t) (gsp_id : Z)
  : Query.t (GSPYieldSQL.t * GSPYieldSQL.t) :=
  let sub_query_day_after :=
    make_pvlive_subquery session datetime_interval gsp_id "day-after" in
  let sub_query_in_day :=
    make_pvlive_subquery session datetime_interval gsp_id "in-day" in
  Query.mk
    (inner_join sub_query_day_after sub_query_in_day
       (fun day_after in_day =>
          GSPYieldSQL.datetime_utc day_after =? GSPYieldSQL.datetime_utc in_day))
    []
    (fun r =>
       fabs (fsub (fdiv (GSPYieldSQL.solar_generation_kw (fst r)) (FNum 1000))
                  (fdiv (GSPYieldSQL.solar_generation_kw (snd r)) (FNum 1000)))).

Definition make_pvlive_mae (datetime_interval : DatetimeInterval.t) (gsp_id : Z)
  : Py (option Float * Z) :=
  (session <- get_session ;;
   let query := make_pvlive_mae_query session datetime_interval gsp_id in
   row <- first_row (Query.all query) ;;
   let number_of_data_points := snd row in
   let value := fst row in
   location <- get_location gsp_id ;;
   save_metric_value_to_database
     (SaveCall.mk value number_of_data_points pvlive_mae datetime_interval
                  (Some location) None) ;;;
   ret (value, number_of_data_points))%py.

(** The query of [make_mae_one_gsp_with_forecast_horizon] (lines 115-125). *)
Definition make_mae_one_gsp_with_forecast_horizon_query
  (session : Session) (datetime_interval : DatetimeInterval.t) (gsp_id : Z)
  (forecast_horizon_minutes : Z) : Query.t (ForecastValueSQL.t * GSPYieldSQL.t) :=
  let sub_query_gsp := make_gsp_sub_query datetime_interval gsp_id session in
  let sub_query_forecast :=
    make_forecast_sub_query datetime_interval forecast_horizon_minutes gsp_id session in
  let query := make_mae_query session ForecastValueSQL.t in
  let query :=
    Query.filter_
      (fun r => existsb (Z.eqb (ForecastValueSQL.uuid (fst r))) sub_query_forecast)
      query in
  let query :=
    Query.filter_
      (fun r => existsb (Z.eqb (GSPYieldSQL.id (snd r))) sub_query_gsp) query in
  Query.filter_
    (fun r => GSPYieldSQL.datetime_utc (snd r) =? ForecastValueSQL.target_time (fst r))
    query.

(** Lines 115-144 of [make_mae_one_gsp_with_forecast_horizon] up to the point
    where [save_metric_value_to_database] is entered: the query, its result
    and the keyword arguments of the call, [location=get_location(...)]
    among them. *)
Definition make_mae_one_gsp_with_forecast_horizon_call
  (datetime_interval : DatetimeInterval.t) (gsp_id : Z) (forecast_horizon_minutes : Z)
  : Py SaveCall.t :=
  (session <- get_session ;;
   let query :=
     make_mae_one_gsp_with_forecast_horizon_query
       session datetime_interval gsp_id forecast_horizon_minutes in
   row <- first_row (Query.all query) ;;
   let number_of_data_points := snd row in
   let value := fst row in
   location <- get_location gsp_id ;;
   ret (SaveCall.mk value number_of_data_points latest_mae datetime_interval
                    (Some location) (Some forecast_horizon_minutes)))%py.

Definition make_mae_one_gsp_with_forecast_horizon
  (datetime_interval : DatetimeInterval.t) (gsp_id : Z) (forecast_horizon_minutes : Z)
  : Py (option Float * Z) :=
  (call <-
     make_mae_one_gsp_with_forecast_horizon_call
       datetime_interval gsp_id forecast_horizon_minutes ;;
   save_metric_value_to_database call ;;;
   ret (SaveCall.value call, SaveCall.number_of_data_points call))%py.

(** The query of [make_mae_one_gsp] (lines 167-181).  [query.filter()]
    without a criterion (line 170) adds nothing. *)
Definition make_mae_one_gsp_query
  (session : Session) (datetime_interval : DatetimeInterval.t) (gsp_id : Z)
  : Query.t (Joined ForecastValueLatestSQL.t) :=
  let query := make_mae_query session ForecastValueLatestSQL.t in
  let query := join_location session query in
  let query := Query.filter_ (fun r => LocationSQL.gsp_id (location_of r) =? gsp_id) query in
  let query :=
    Query.filter_ (fun r => ForecastValueLatestSQL.gsp_id (forecast_of r) =? gsp_id) query in
  let query := filter_query_on_datetime_interval datetime_interval query in
  Query.filter_ (fun r => String.eqb (GSPYieldSQL.regime (yield_of r)) "day-after") query.

Definition make_mae_one_gsp (datetime_interval : DatetimeInterval.t) (gsp_id : Z)
  : Py (option Float * Z) :=
  (session <- get_session ;;
   let query := make_mae_one_gsp_query session datetime_interval gsp_id in
   row <- first_row (Query.all query) ;;
   let number_of_data_points := snd row in
   let value := fst row in
   location <- get_location gsp_id ;;
   save_metric_value_to_database
     (SaveCall.mk value number_of_data_points latest_mae datetime_interval
                  (Some location) None) ;;;
   ret (value, number_of_data_points))%py.

(** [GSPYieldSQL.solar_generation_kw + 1 > GSPYieldSQL.solar_generation_kw] *)
Definition non_nan (v : Float) : bool := fgt (fadd v (FNum 1)) v.

(** The query of [make_mae_all_gsp] (lines 217-235); line 220 is the same
    empty [query.filter()]. *)
Definition make_mae_all_gsp_query
  (session : Session) (datetime_interval : DatetimeInterval.t)
  : Query.t (Joined ForecastValueLatestSQL.t) :=
  let query := make_mae_query session ForecastValueLatestSQL.t in
  let query := join_location session query in
  let query := Query.filter_ (fun r => negb (LocationSQL.gsp_id (location_of r) =? 0)) query in
  let query :=
    Query.filter_ (fun r => negb (ForecastValueLatestSQL.gsp_id (forecast_of r) =? 0)) query in
  let query :=
    Query.filter_
      (fun r => ForecastValueLatestSQL.gsp_id (forecast_of r)
                =? LocationSQL.gsp_id (location_of r)) query in
  let query :=
    Query.filter_ (fun r => non_nan (GSPYieldSQL.solar_generation_kw (yield_of r))) query in
  let query := filter_query_on_datetime_interval datetime_interval query in
  Query.filter_ (fun r => String.eqb (GSPYieldSQL.regime (yield_of r)) "day-after") query.

Definition make_mae_all_gsp (datetime_interval : DatetimeInterval.t)
  : Py (option Float * Z) :=
  (session <- get_session ;;
   let query := make_mae_all_gsp_query session datetime_interval in
   row <- first_row (Query.all query) ;;
   let number_of_data_points := snd row in
   let value := fst row in
   save_metric_value_to_database
     (SaveCall.mk value number_of_data_points mae_all_gsps datetime_interval
                  None None) ;;;
   ret (value, number_of_data_points))%py.

(** [make_mae]; the defaults of [n_gsps] ([N_GSP] of [nowcasting_datamodel])
    and of [max_forecast_horizon_minutes] (480) are left to the caller. *)
Definition make_mae
  (datetime_interval : DatetimeInterval.t) (n_gsps : Z) (max_forecast_horizon_minutes : Z)
  : Py unit :=
  (for_ (range 0 (n_gsps + 1) 1)
        (fun gps_id => make_mae_one_gsp datetime_interval gps_id) ;;;
   make_mae_all_gsp datetime_interval ;;;
   for_ (range 0 max_forecast_horizon_minutes 30)
        (fun forecast_horizon_minutes =>
           make_mae_one_gsp_with_forecast_horizon
             datetime_interval 0 forecast_horizon_minutes) ;;;
   for_ (range 0 (n_gsps + 1) 1)
        (fun gps_id => make_pvlive_mae datetime_interval gps_id))%py.

(** ** The partitions of one invocation *)

Inductive Partition : Type :=
| SiteMAE (gsp_id : Z)                               (* [make_mae_one_gsp] *)
| AllSitesMAE                                        (* [make_mae_all_gsp] *)
| HorizonMAE (gsp_id forecast_horizon_minutes : Z)   (* [make_mae_one_gsp_with_forecast_horizon] *)
| RevisionMAE (gsp_id : Z).                          (* [make_pvlive_mae] *)

Definition run_partition (di : DatetimeInterval.t) (p : Partition) : Py (option Float * Z) :=
  match p with
  | SiteMAE g => make_mae_one_gsp di g
  | AllSitesMAE => make_mae_all_gsp di
  | HorizonMAE g h => make_mae_one_gsp_with_forecast_horizon di g h
  | RevisionMAE g => make_pvlive_mae di g
  end.

(** The calls of [make_mae], in the order of its four loops. *)
Definition partitions (n_gsps max_forecast_horizon_minutes : Z) : list Partition :=
  map SiteMAE (range 0 (n_gsps + 1) 1)
  ++ [AllSitesMAE]
  ++ map (HorizonMAE 0) (range 0 max_forecast_horizon_minutes 30)
  ++ map RevisionMAE (range 0 (n_gsps + 1) 1).

(** ** Sessions with some rows taken out *)

Definition set_gsp_yield (l : list GSPYieldSQL.t) (s : Session) : Session :=
  mkSession (forecast_value_latest s) (forecast_value s) l (location s)
            (metric s) (datetime_interval s) (metric_value s).

Definition set_forecast_value_latest (l : list ForecastValueLatestSQL.t) (s : Session)
  : Session :=
  mkSession l (forecast_value s) (gsp_yield s) (location s)
            (metric s) (datetime_interval s) (metric_value s).

(** The session without the ground truth rows whose value fails
    [value + 1 > value]. *)
Definition without_nan_yields (s : Session) : Session :=
  set_gsp_yield
    (filter (fun y => non_nan (GSPYieldSQL.solar_generation_kw y)) (gsp_yield s)) s.

(** The session without the rows of site 0: its latest forecasts and its
    location, hence the ground truth attached to it. *)
Definition without_national (s : Session) : Session :=
  set_forecast_value_latest
    (filter (fun f => negb (ForecastValueLatestSQL.gsp_id f =? 0)) (forecast_value_latest s))
    (set_location
       (filter (fun l => negb (LocationSQL.gsp_id l =? 0)) (location s)) s).

(** ** Example sessions *)

Definition empty_session : Session := mkSession [] [] [] [] [] [] [].

Definition one_day : DatetimeInterval.t := DatetimeInterval.mk 0 1440.

(** Site 1 with one forecast of 1 MW and one day-after reading of 1000 kW at
    minute 30. *)
Definition unit_session : Session :=
  mkSession
    [ForecastValueLatestSQL.mk 30 (FNum 1) 1]
    []
    [GSPYieldSQL.mk 1 30 (FNum 1000) "day-after" 1]
    [LocationSQL.mk 1 1]
    [] [] [].

(** Site 1 with readings at minutes 30 and 60; the second reading is NaN in
    both regimes. *)
Definition nan_session : Session :=
  mkSession
    [ForecastValueLatestSQL.mk 30 (FNum 1) 1; ForecastValueLatestSQL.mk 60 (FNum 4) 1]
    []
    [GSPYieldSQL.mk 1 30 (FNum 1000) "day-after" 1;
     GSPYieldSQL.mk 2 60 FNaN "day-after" 1;
     GSPYieldSQL.mk 3 30 (FNum 1000) "in-day" 1;
     GSPYieldSQL.mk 4 60 FNaN "in-day" 1]
    [LocationSQL.mk 1 1]
    [] [] [].

(** The fixtures of [tests/conftest.py]: sites 0..5, each with latest
    forecasts of 1 MW and 4 MW and day-after readings of 1000 kW at 00:30 and
    01:00 of the day [one_day]. *)
Definition conftest_session : Session :=
  mkSession
    (flat_map
       (fun gsp_id =>
          [ForecastValueLatestSQL.mk 30 (FNum 1) gsp_id;
           ForecastValueLatestSQL.mk 60 (FNum 4) gsp_id])
       (range 0 6 1))
    []
    (flat_map
       (fun gsp_id =>
          [GSPYieldSQL.mk (2 * gsp_id + 1) 30 (FNum 1000) "day-after" (gsp_id + 1);
           GSPYieldSQL.mk (2 * gsp_id + 2) 60 (FNum 1000) "day-after" (gsp_id + 1)])
       (range 0 6 1))
    (map (fun gsp_id => LocationSQL.mk (gsp_id + 1) gsp_id) (range 0 6 1))
    [] [] [].


(** ** Vocabulary of the statements *)

(** [c] returns [r] from [s] and adds one row to [metric_value], which
    carries [r], the metric name and no horizon; [site] tells which location
    it carries. *)
Definition persists_one
  (c : Py (option Float * Z)) (s : Session) (r : option Float * Z)
  (name : string) (site : option Z) : Prop :=
  exists s' mv,
    c s = (s', Returned r)
    /\ metric_value s' = metric_value s ++ [mv]
    /\ MetricValueSQL.value mv = fst r
    /\ MetricValueSQL.number_of_data_points mv = snd r
    /\ Metric.name (MetricValueSQL.metric mv) = name
    /\ option_map LocationSQL.gsp_id (MetricValueSQL.location mv) = site
    /\ MetricValueSQL.forecast_horizon_minutes mv = None.

(** [FROM forecast_value_latest, gsp_yield JOIN location]: the rows that
    [make_mae_one_gsp] and [make_mae_all_gsp] filter. *)
Definition latest_joined (s : Session) : list (Joined ForecastValueLatestSQL.t) :=
  inner_join (list_prod (forecast_value_latest s) (gsp_yield s)) (location s)
             (fun r l => LocationSQL.id l =? GSPYieldSQL.location_id (snd r)).

(** The rows that [make_pvlive_mae] aggregates: the day-after and the
    in-day view of the site joined on equal [datetime_utc]. *)
Definition matched_timestamps (s : Session) (di : DatetimeInterval.t) (g : Z)
  : list (GSPYieldSQL.t * GSPYieldSQL.t) :=
  inner_join (make_pvlive_subquery s di g "day-after")
             (make_pvlive_subquery s di g "in-day")
             (fun day_after in_day =>
                GSPYieldSQL.datetime_utc day_after =? GSPYieldSQL.datetime_utc in_day).

(** ** Vocabulary of the further properties *)

(** A value that is not below zero: NaN, plus infinity, or a finite number
    that is at least 0. *)
Definition not_negative (x : Float) : Prop :=
  match x with
  | FNaN => True
  | FInf negative => negative = false
  | FNum q => (0 <= q)%Q
  end.

(** From [s] to [s'] the forecast tables and the ground truth table are the
    same, and the other tables have only grown at their end. *)
Definition only_appends (s s' : Session) : Prop :=
  forecast_value_latest s' = forecast_value_latest s
  /\ forecast_value s' = forecast_value s
  /\ gsp_yield s' = gsp_yield s
  /\ (exists l, location s' = location s ++ l)
  /\ (exists l, metric s' = metric s ++ l)
  /\ (exists l, datetime_interval s' = datetime_interval s ++ l)
  /\ (exists l, metric_value s' = metric_value s ++ l).

(** The session with the latest forecasts and the locations of site [g]
    alone. *)
Definition only_site (g : Z) (s : Session) : Session :=
  set_forecast_value_latest
    (filter (fun f => ForecastValueLatestSQL.gsp_id f =? g) (forecast_value_latest s))
    (set_location (filter (fun l => LocationSQL.gsp_id l =? g) (location s)) s).

(** The session with the day-after ground truth alone. *)
Definition only_day_after (s : Session) : Session :=
  set_gsp_yield
    (filter (fun y => String.eqb (GSPYieldSQL.regime y) "day-after") (gsp_yield s)) s.

(** What the row of a partition looks like: the name of its metric, the site
    of its location, the interval and no horizon. *)
Definition row_of (di : DatetimeInterval.t) (p : Partition) (mv : MetricValueSQL.t)
  : Prop :=
  MetricValueSQL.datetime_interval mv = di
  /\ MetricValueSQL.forecast_horizon_minutes mv = None
  /\ match p with
     | SiteMAE g =>
         Metric.name (MetricValueSQL.metric mv) = "Daily Latest MAE"%string
         /\ option_map LocationSQL.gsp_id (MetricValueSQL.location mv) = Some g
     | AllSitesMAE =>
         Metric.name (MetricValueSQL.metric mv) = "Daily Latest MAE All GSPs"%string
         /\ MetricValueSQL.location mv = None
     | HorizonMAE g _ =>
         Metric.name (MetricValueSQL.metric mv) = "Daily Latest MAE"%string
         /\ option_map LocationSQL.gsp_id (MetricValueSQL.location mv) = Some g
     | RevisionMAE g =>
         Metric.name (MetricValueSQL.metric mv) = "PVLive MAE"%string
         /\ option_map LocationSQL.gsp_id (MetricValueSQL.location mv) = Some g
     end.



(** * Properties *)

(** ** The fixtures of the tests

    Each site has a mean absolute error of [(|1 - 1| + |4 - 1|) / 2 = 3/2]
    over two data points; the five sites other than 0 together have the same
    mean over ten. *)

Example conftest_scenario :
  snd (make_mae_one_gsp one_day 1 conftest_session) = Returned (Some (FNum (3 # 2)), 2)
  /\ snd (make_mae_one_gsp one_day 0 conftest_session) = Returned (Some (FNum (3 # 2)), 2)
  /\ snd (make_mae_all_gsp one_day conftest_session) = Returned (Some (FNum (3 # 2)), 10).
Proof. repeat split. Qed.

(** ** The monad *)

Lemma bind_returned {A B} (c : Py A) (k : A -> Py B) s s' a :
  c s = (s', Returned a) -> bind c k s = k a s'.
Proof. intros H. unfold bind. now rewrite H. Qed.

Lemma bind_raised {A B} (c : Py A) (k : A -> Py B) s s' e :
  c s = (s', Raised e) -> bind c k s = (s', Raised e).
Proof. intros H. unfold bind. now rewrite H. Qed.

Lemma bind_ext {A B} (c c' : Py A) (k k' : A -> Py B) s :
  (forall s0, c s0 = c' s0) ->
  (forall a s0, k a s0 = k' a s0) ->
  bind c k s = bind c' k' s.
Proof.
  intros Hc Hk. unfold bind. rewrite Hc.
  destruct (c' s) as [s1 [a|e]]; [apply Hk | reflexivity].
Qed.

Lemma for_app {X A} (l1 l2 : list X) (body : X -> Py A) s :
  for_ (l1 ++ l2) body s = bind (for_ l1 body) (fun _ => for_ l2 body) s.
Proof.
  revert s. induction l1 as [|x l1 IH]; intros s; simpl.
  - reflexivity.
  - unfold bind. destruct (body x s) as [s1 [a|e]].
    + rewrite IH. reflexivity.
    + reflexivity.
Qed.

Lemma for_map {X Y A} (f : X -> Y) (l : list X) (body : Y -> Py A) s :
  for_ (map f l) body s = for_ l (fun x => body (f x)) s.
Proof.
  revert s. induction l as [|x l IH]; intros s; simpl.
  - reflexivity.
  - unfold bind. destruct (body (f x) s) as [s1 [a|e]]; [apply IH | reflexivity].
Qed.

(** A raise inside a loop ends the loop: the rest of the list is not run. *)
Lemma for_raises {X A} (pre post : list X) (x : X) (body : X -> Py A) s s1 s2 e :
  for_ pre body s = (s1, Returned tt) ->
  body x s1 = (s2, Raised e) ->
  for_ (pre ++ x :: post) body s = (s2, Raised e).
Proof.
  intros Hpre Hx. rewrite for_app. rewrite (bind_returned _ _ _ _ _ Hpre).
  simpl. now rewrite (bind_raised _ _ _ _ _ Hx).
Qed.

(** ** [range] *)

Lemma range_length (start stop step : Z) :
  List.length (range start stop step) = Z.to_nat ((stop - start + step - 1) / step).
Proof. unfold range. now rewrite length_map, length_seq. Qed.


(** ** Readers and the writer *)

Lemma get_location_spec (g : Z) (s : Session) :
  exists s' l,
    get_location g s = (s', Returned l)
    /\ LocationSQL.gsp_id l = g
    /\ metric_value s' = metric_value s.
Proof.
  unfold get_location.
  destruct (filter (fun l => LocationSQL.gsp_id l =? g) (location s)) as [|l ls] eqn:E.
  - eexists _, _. split; [reflexivity|]. split; reflexivity.
  - exists s, l. split; [reflexivity|]. split; [|reflexivity].
    assert (Hin : In l (filter (fun l => LocationSQL.gsp_id l =? g) (location s)))
      by (rewrite E; now left).
    apply filter_In in Hin. destruct Hin as [_ Hg]. now apply Z.eqb_eq in Hg.
Qed.

Lemma get_metric_spec (name : string) (s : Session) :
  exists s' m,
    get_metric name s = (s', Returned m)
    /\ Metric.name m = name
    /\ metric_value s' = metric_value s.
Proof.
  unfold get_metric.
  destruct (filter (fun m => String.eqb (Metric.name m) name) (metric s)) as [|m ms] eqn:E.
  - eexists _, _. split; [reflexivity|]. split; reflexivity.
  - exists s, m. split; [reflexivity|]. split; [|reflexivity].
    assert (Hin : In m (filter (fun m => String.eqb (Metric.name m) name) (metric s)))
      by (rewrite E; now left).
    apply filter_In in Hin. destruct Hin as [_ Hn]. now apply String.eqb_eq in Hn.
Qed.

Lemma get_datetime_interval_spec (a b : datetime) (s : Session) :
  exists s' d,
    get_datetime_interval a b s = (s', Returned d)
    /\ d = DatetimeInterval.mk a b
    /\ metric_value s' = metric_value s.
Proof.
  unfold get_datetime_interval.
  destruct (filter (DatetimeInterval_eqb (DatetimeInterval.mk a b)) (datetime_interval s))
    as [|d ds] eqn:E.
  - eexists _, _. split; [reflexivity|]. split; reflexivity.
  - exists s, d. split; [reflexivity|]. split; [|reflexivity].
    assert (Hin : In d (filter (DatetimeInterval_eqb (DatetimeInterval.mk a b))
                               (datetime_interval s)))
      by (rewrite E; now left).
    apply filter_In in Hin. destruct Hin as [_ Hd].
    unfold DatetimeInterval_eqb in Hd. simpl in Hd.
    apply andb_true_iff in Hd. destruct Hd as [H1 H2].
    apply Z.eqb_eq in H1, H2. destruct d as [x y]. simpl in *. now subst.
Qed.

(** A call without [forecast_horizon_minutes] returns and adds one row, with
    the value, the count and the location of the call. *)
Lemma save_metric_value_to_database_spec (call : SaveCall.t) (s : Session) :
  SaveCall.forecast_horizon_minutes call = None ->
  exists s' m,
    save_metric_value_to_database call s = (s', Returned tt)
    /\ Metric.name m = Metric.name (SaveCall.metric call)
    /\ metric_value s' =
       metric_value s
       ++ [MetricValueSQL.mk (SaveCall.value call) (SaveCall.number_of_data_points call)
             m (SaveCall.datetime_interval call) (SaveCall.location call) None].
Proof.
  intros Hh. unfold save_metric_value_to_database. rewrite Hh.
  destruct (get_metric_spec (Metric.name (SaveCall.metric call)) s)
    as [s1 [m [Hm [Hname Hmv1]]]].
  rewrite (bind_returned _ _ _ _ _ Hm).
  destruct (get_datetime_interval_spec
              (DatetimeInterval.start_datetime_utc (SaveCall.datetime_interval call))
              (DatetimeInterval.end_datetime_utc (SaveCall.datetime_interval call)) s1)
    as [s2 [d [Hd [Hdi Hmv2]]]].
  rewrite (bind_returned _ _ _ _ _ Hd).
  assert (Hd' : d = SaveCall.datetime_interval call).
  { rewrite Hdi. now destruct (SaveCall.datetime_interval call). }
  rewrite Hd' in *.
  eexists _, m. split; [reflexivity|]. split; [exact Hname|].
  unfold session_add, set_metric_value. simpl. rewrite Hmv2, Hmv1.
  now destruct (SaveCall.location call).
Qed.

(** A call with [forecast_horizon_minutes] raises and leaves the session as
    it was. *)
Lemma save_metric_value_to_database_unexpected_keyword (call : SaveCall.t) (s : Session) h :
  SaveCall.forecast_horizon_minutes call = Some h ->
  save_metric_value_to_database call s = (s, Raised (TypeError unexpected_keyword)).
Proof.
  intros Hh. unfold save_metric_value_to_database. now rewrite Hh.
Qed.

(** ** What each partition returns and adds *)

Lemma make_mae_one_gsp_persists di g s :
  persists_one (make_mae_one_gsp di g) s
    (Query.aggregate (make_mae_one_gsp_query s di g)) "Daily Latest MAE" (Some g).
Proof.
  unfold persists_one, make_mae_one_gsp.
  unfold get_session at 1. unfold bind at 1. simpl first_row.
  unfold ret at 1. unfold bind at 1.
  destruct (get_location_spec g s) as [s1 [l [Hl [Hg Hmv1]]]].
  rewrite (bind_returned _ _ _ _ _ Hl).
  match goal with |- context [save_metric_value_to_database ?c] =>
    destruct (save_metric_value_to_database_spec c s1 eq_refl) as [s2 [m [Hs [Hn Hmv2]]]]
  end.
  rewrite (bind_returned _ _ _ _ _ Hs).
  eexists _, _. split; [reflexivity|].
  split; [rewrite Hmv2, Hmv1; reflexivity|].
  simpl. repeat split; try assumption. now rewrite Hg.
Qed.

Lemma make_pvlive_mae_persists di g s :
  persists_one (make_pvlive_mae di g) s
    (Query.aggregate (make_pvlive_mae_query s di g)) "PVLive MAE" (Some g).
Proof.
  unfold persists_one, make_pvlive_mae.
  unfold get_session at 1. unfold bind at 1. simpl first_row.
  unfold ret at 1. unfold bind at 1.
  destruct (get_location_spec g s) as [s1 [l [Hl [Hg Hmv1]]]].
  rewrite (bind_returned _ _ _ _ _ Hl).
  match goal with |- context [save_metric_value_to_database ?c] =>
    destruct (save_metric_value_to_database_spec c s1 eq_refl) as [s2 [m [Hs [Hn Hmv2]]]]
  end.
  rewrite (bind_returned _ _ _ _ _ Hs).
  eexists _, _. split; [reflexivity|].
  split; [rewrite Hmv2, Hmv1; reflexivity|].
  simpl. repeat split; try assumption. now rewrite Hg.
Qed.

Lemma make_mae_all_gsp_persists di s :
  persists_one (make_mae_all_gsp di) s
    (Query.aggregate (make_mae_all_gsp_query s di)) "Daily Latest MAE All GSPs" None.
Proof.
  unfold persists_one, make_mae_all_gsp.
  unfold get_session at 1. unfold bind at 1. simpl first_row.
  unfold ret at 1. unfold bind at 1.
  match goal with |- context [save_metric_value_to_database ?c] =>
    destruct (save_metric_value_to_database_spec c s eq_refl) as [s2 [m [Hs [Hn Hmv2]]]]
  end.
  rewrite (bind_returned _ _ _ _ _ Hs).
  eexists _, _. split; [reflexivity|].
  split; [rewrite Hmv2; reflexivity|].
  simpl. repeat split; assumption.
Qed.

(** The keyword arguments that [make_mae_one_gsp_with_forecast_horizon]
    evaluates: the result of its query, the location of the site and the
    horizon. *)
Lemma make_mae_one_gsp_with_forecast_horizon_call_spec di g h s :
  exists s' l,
    make_mae_one_gsp_with_forecast_horizon_call di g h s
    = (s', Returned
             (SaveCall.mk
                (fst (Query.aggregate (make_mae_one_gsp_with_forecast_horizon_query s di g h)))
                (snd (Query.aggregate (make_mae_one_gsp_with_forecast_horizon_query s di g h)))
                latest_mae di (Some l) (Some h)))
    /\ LocationSQL.gsp_id l = g
    /\ metric_value s' = metric_value s.
Proof.
  unfold make_mae_one_gsp_with_forecast_horizon_call.
  unfold get_session at 1. unfold bind at 1. simpl first_row.
  unfold ret at 1. unfold bind at 1.
  destruct (get_location_spec g s) as [s1 [l [Hl [Hg Hmv1]]]].
  rewrite (bind_returned _ _ _ _ _ Hl).
  exists s1, l. split; [reflexivity|]. split; assumption.
Qed.

(** [make_mae_one_gsp_with_forecast_horizon] raises [TypeError] on every
    input and adds no row. *)
Lemma make_mae_one_gsp_with_forecast_horizon_raises di g h s :
  exists s',
    make_mae_one_gsp_with_forecast_horizon di g h s
    = (s', Raised (TypeError unexpected_keyword))
    /\ metric_value s' = metric_value s.
Proof.
  destruct (make_mae_one_gsp_with_forecast_horizon_call_spec di g h s)
    as [s1 [l [Hc [_ Hmv]]]].
  exists s1. split; [|exact Hmv].
  unfold make_mae_one_gsp_with_forecast_horizon.
  rewrite (bind_returned _ _ _ _ _ Hc).
  apply bind_raised.
  now apply save_metric_value_to_database_unexpected_keyword with (h := h).
Qed.

(** ** Loops over partitions that each add one row *)

Lemma for_persists_each {X} (l : list X) (body : X -> Py (option Float * Z)) s :
  (forall x s0, In x l ->
     exists s1 r mv, body x s0 = (s1, Returned r)
                     /\ metric_value s1 = metric_value s0 ++ [mv]) ->
  exists s' added,
    for_ l body s = (s', Returned tt)
    /\ metric_value s' = metric_value s ++ added
    /\ List.length added = List.length l.
Proof.
  revert s. induction l as [|x l IH]; intros s Hbody.
  - exists s, []. simpl. rewrite app_nil_r. repeat split.
  - destruct (Hbody x s (or_introl eq_refl)) as [s1 [r [mv [Hx Hmv]]]].
    destruct (IH s1) as [s2 [added [Hl [Hmv2 Hlen]]]].
    { intros y s0 Hy. apply Hbody. now right. }
    exists s2, (mv :: added). simpl.
    rewrite (bind_returned _ _ _ _ _ Hx).
    split; [exact Hl|]. split.
    + rewrite Hmv2, Hmv, <- app_assoc. reflexivity.
    + now rewrite Hlen.
Qed.

Lemma persists_one_adds c s r name site :
  persists_one c s r name site ->
  exists s1 r' mv, c s = (s1, Returned r') /\ metric_value s1 = metric_value s ++ [mv].
Proof.
  intros [s' [mv [Hc [Hmv _]]]]. now exists s', r, mv.
Qed.

(** [make_mae] runs its partitions in order. *)
Lemma make_mae_partitions di n max s :
  make_mae di n max s = for_ (partitions n max) (run_partition di) s.
Proof.
  unfold make_mae, partitions.
  rewrite for_app. apply bind_ext; [intros s0; now rewrite for_map | intros _ s1].
  simpl. apply bind_ext; [reflexivity | intros _ s2].
  rewrite for_app. apply bind_ext; [intros s0; now rewrite for_map | intros _ s3].
  now rewrite for_map.
Qed.

(** ** Joins and filters *)

Lemma in_inner_join {R S} (l : list R) (rt : list S) (on : R -> S -> bool) r x :
  In (r, x) (inner_join l rt on) <-> In r l /\ In x rt /\ on r x = true.
Proof.
  unfold inner_join. rewrite in_flat_map. split.
  - intros [r0 [Hr0 Hin]]. apply in_map_iff in Hin.
    destruct Hin as [x0 [Heq Hx0]]. inversion Heq; subst.
    apply filter_In in Hx0. tauto.
  - intros [Hr [Hx Hon]]. exists r. split; [assumption|].
    apply in_map_iff. exists x. split; [reflexivity|].
    apply filter_In. tauto.
Qed.

Lemma filter_absorb {A} (p q : A -> bool) (l : list A) :
  (forall x, p x = true -> q x = true) ->
  filter p (filter q l) = filter p l.
Proof.
  intros Hpq. induction l as [|x l IH]; simpl; [reflexivity|].
  destruct (q x) eqn:Eq; simpl.
  - now rewrite IH.
  - destruct (p x) eqn:Ep; [|exact IH].
    apply Hpq in Ep. congruence.
Qed.

Lemma map_filter_comm {A B} (f : A -> B) (p : B -> bool) (l : list A) :
  filter p (map f l) = map f (filter (fun x => p (f x)) l).
Proof.
  induction l as [|x l IH]; simpl; [reflexivity|].
  destruct (p (f x)); simpl; now rewrite IH.
Qed.

Lemma filter_pairs_of {A B} (q : A -> bool) (a : A) (l' : list B) :
  filter (fun x => q (fst x)) (map (pair a) l') = if q a then map (pair a) l' else [].
Proof.
  induction l' as [|b l' IH]; simpl.
  - now destruct (q a).
  - destruct (q a); [now rewrite IH | exact IH].
Qed.

Lemma list_prod_filter_l {A B} (q : A -> bool) (l : list A) (l' : list B) :
  list_prod (filter q l) l' = filter (fun x => q (fst x)) (list_prod l l').
Proof.
  induction l as [|a l IH]; simpl; [reflexivity|].
  rewrite filter_app, <- IH, filter_pairs_of.
  now destruct (q a).
Qed.

Lemma list_prod_filter_r {A B} (q : B -> bool) (l : list A) (l' : list B) :
  list_prod l (filter q l') = filter (fun x => q (snd x)) (list_prod l l').
Proof.
  induction l as [|a l IH]; simpl; [reflexivity|].
  now rewrite filter_app, <- IH, map_filter_comm.
Qed.

Lemma inner_join_filter_l {R S} (q : R -> bool) (l : list R) (rt : list S) on :
  inner_join (filter q l) rt on = filter (fun x => q (fst x)) (inner_join l rt on).
Proof.
  unfold inner_join. induction l as [|r l IH]; simpl; [reflexivity|].
  rewrite filter_app, <- IH, filter_pairs_of.
  now destruct (q r).
Qed.

Lemma inner_join_filter_r {R S} (q : S -> bool) (l : list R) (rt : list S) on :
  inner_join l (filter q rt) on = filter (fun x => q (snd x)) (inner_join l rt on).
Proof.
  unfold inner_join. induction l as [|r l IH]; simpl; [reflexivity|].
  rewrite filter_app, <- IH, map_filter_comm. simpl. f_equal. f_equal.
  clear. induction rt as [|b rt IH]; simpl; [reflexivity|].
  destruct (q b) eqn:Eq; simpl; destruct (on r b); simpl; rewrite ?Eq, ?IH; reflexivity.
Qed.

(** ** The rows of the queries *)

Ltac split_andb :=
  repeat match goal with
    | H : (_ && _)%bool = true |- _ => apply andb_true_iff in H; destruct H
    | H : negb _ = true |- _ => apply negb_true_iff in H
    end.

Lemma filter_true {A} (l : list A) : filter (fun _ => true) l = l.
Proof. induction l as [|x l IH]; simpl; congruence. Qed.

Lemma rows_make_pvlive_mae_query s di g :
  Query.rows (make_pvlive_mae_query s di g) = matched_timestamps s di g.
Proof. unfold Query.rows. simpl. apply filter_true. Qed.

(** [make_mae_all_gsp] aggregates only rows whose ground truth passes
    [value + 1 > value] and whose two site ids are not 0. *)
Lemma rows_make_mae_all_gsp_query s di r :
  In r (Query.rows (make_mae_all_gsp_query s di)) <->
  In r (latest_joined s)
  /\ LocationSQL.gsp_id (location_of r) <> 0
  /\ ForecastValueLatestSQL.gsp_id (forecast_of r) <> 0
  /\ ForecastValueLatestSQL.gsp_id (forecast_of r) = LocationSQL.gsp_id (location_of r)
  /\ non_nan (GSPYieldSQL.solar_generation_kw (yield_of r)) = true
  /\ DatetimeInterval.start_datetime_utc di <= GSPYieldSQL.datetime_utc (yield_of r)
  /\ GSPYieldSQL.datetime_utc (yield_of r) <= DatetimeInterval.end_datetime_utc di
  /\ GSPYieldSQL.datetime_utc (yield_of r)
     = ForecastValueLatestSQL.target_time (forecast_of r)
  /\ GSPYieldSQL.regime (yield_of r) = "day-after"%string.
Proof.
  unfold Query.rows. rewrite filter_In. simpl Query.from_. simpl Query.where_.
  simpl forallb. fold (latest_joined s).
  rewrite !andb_true_iff, !negb_true_iff, !Z.eqb_neq, !Z.eqb_eq, !Z.leb_le, String.eqb_eq.
  tauto.
Qed.

(** [make_mae_one_gsp] aggregates every joined row of the site: nothing in
    the condition looks at the ground truth value. *)
Lemma rows_make_mae_one_gsp_query s di g r :
  In r (Query.rows (make_mae_one_gsp_query s di g)) <->
  In r (latest_joined s)
  /\ LocationSQL.gsp_id (location_of r) = g
  /\ ForecastValueLatestSQL.gsp_id (forecast_of r) = g
  /\ DatetimeInterval.start_datetime_utc di <= GSPYieldSQL.datetime_utc (yield_of r)
  /\ GSPYieldSQL.datetime_utc (yield_of r) <= DatetimeInterval.end_datetime_utc di
  /\ GSPYieldSQL.datetime_utc (yield_of r)
     = ForecastValueLatestSQL.target_time (forecast_of r)
  /\ GSPYieldSQL.regime (yield_of r) = "day-after"%string.
Proof.
  unfold Query.rows. rewrite filter_In. simpl Query.from_. simpl Query.where_.
  simpl forallb. fold (latest_joined s).
  rewrite !andb_true_iff, !Z.eqb_eq, !Z.leb_le, String.eqb_eq.
  tauto.
Qed.

Lemma in_latest_joined s f y l :
  In (f, y, l) (latest_joined s) <->
  In f (forecast_value_latest s) /\ In y (gsp_yield s) /\ In l (location s)
  /\ LocationSQL.id l = GSPYieldSQL.location_id y.
Proof.
  unfold latest_joined. rewrite in_inner_join, in_prod_iff. simpl.
  rewrite Z.eqb_eq. tauto.
Qed.

(** ** Arithmetic of [Float] *)

Lemma Qred_zero (q : Q) : (q == 0)%Q -> Qred q = 0%Q.
Proof. intros H. now rewrite (Qred_complete _ _ H). Qed.

Lemma fsub_finite_self (q : Q) : fsub (FNum q) (FNum q) = FNum 0.
Proof.
  unfold fsub. f_equal. apply Qred_zero. unfold Qminus. apply Qplus_opp_r.
Qed.

Lemma fdiv_finite (q : Q) : fdiv (FNum q) (FNum 1000) = FNum (Qred (q / 1000)).
Proof. reflexivity. Qed.

Lemma fsum_zeros (l : list Float) :
  (forall x, In x l -> x = FNum 0) -> fsum l = FNum 0.
Proof.
  unfold fsum. induction l as [|x l IH]; intros H; simpl; [reflexivity|].
  rewrite (H x (or_introl eq_refl)).
  change (fadd (FNum 0) (FNum 0)) with (FNum 0). apply IH.
  intros y Hy. apply H. now right.
Qed.

Lemma favg_zeros (l : list Float) :
  l <> [] -> (forall x, In x l -> x = FNum 0) -> favg l = Some (FNum 0).
Proof.
  intros Hne Hz. destruct l as [|x l]; [congruence|].
  unfold favg. rewrite (fsum_zeros _ Hz).
  (* the count is a positive integer: the quotient reduces to 0 *)
  reflexivity.
Qed.

(** In this model [value + 1 > value] holds exactly for the finite values. *)
Lemma non_nan_is_finite (v : Float) : non_nan v = is_finite v.
Proof.
  destruct v as [|[|]|q]; try reflexivity.
  unfold non_nan, fadd, fgt, is_finite.
  destruct (Qle_bool (Qred (q + 1)) q) eqn:E; [|reflexivity].
  apply Qle_bool_iff in E. rewrite Qred_correct in E.
  exfalso. destruct q as [n d]. unfold Qle in E. simpl in E. nia.
Qed.

Lemma absolute_error_finite (a b : Q) :
  exists c, absolute_error (FNum a) (FNum b) = FNum c /\ (c == Qabs (a - b / 1000))%Q.
Proof.
  unfold absolute_error. rewrite fdiv_finite. unfold fsub, fabs.
  eexists. split; [reflexivity|].
  now rewrite !Qred_correct.
Qed.

(** ** Rows that the all-sites query never sees *)

Lemma latest_joined_without_nan_yields s :
  latest_joined (without_nan_yields s)
  = filter (fun r => non_nan (GSPYieldSQL.solar_generation_kw (yield_of r)))
           (latest_joined s).
Proof.
  unfold latest_joined, without_nan_yields. simpl.
  now rewrite list_prod_filter_r, inner_join_filter_l.
Qed.

Lemma latest_joined_without_national s :
  latest_joined (without_national s)
  = filter (fun r => negb (ForecastValueLatestSQL.gsp_id (forecast_of r) =? 0))
      (filter (fun r => negb (LocationSQL.gsp_id (location_of r) =? 0))
         (latest_joined s)).
Proof.
  unfold latest_joined, without_national. simpl.
  rewrite list_prod_filter_l, inner_join_filter_l, inner_join_filter_r.
  reflexivity.
Qed.

Lemma from_make_mae_all_gsp_query s di :
  Query.from_ (make_mae_all_gsp_query s di) = latest_joined s.
Proof. reflexivity. Qed.

Lemma where_make_mae_all_gsp_query s s' di :
  Query.where_ (make_mae_all_gsp_query s di) = Query.where_ (make_mae_all_gsp_query s' di).
Proof. reflexivity. Qed.

Lemma rows_all_gsp_without_nan_yields s di :
  Query.rows (make_mae_all_gsp_query (without_nan_yields s) di)
  = Query.rows (make_mae_all_gsp_query s di).
Proof.
  unfold Query.rows.
  rewrite !from_make_mae_all_gsp_query, (where_make_mae_all_gsp_query _ s).
  rewrite latest_joined_without_nan_yields.
  apply filter_absorb. intros r H. simpl in H. split_andb. assumption.
Qed.

Lemma rows_all_gsp_without_national s di :
  Query.rows (make_mae_all_gsp_query (without_national s) di)
  = Query.rows (make_mae_all_gsp_query s di).
Proof.
  unfold Query.rows.
  rewrite !from_make_mae_all_gsp_query, (where_make_mae_all_gsp_query _ s).
  rewrite latest_joined_without_national.
  rewrite filter_absorb.
  - apply filter_absorb. intros r H. simpl in H.
    apply andb_true_iff in H. tauto.
  - intros r H. simpl in H.
    apply andb_true_iff in H. destruct H as [_ H].
    apply andb_true_iff in H. tauto.
Qed.

Lemma aggregate_rows {R} (q q' : Query.t R) :
  Query.avg_of q = Query.avg_of q' -> Query.rows q = Query.rows q' ->
  Query.aggregate q = Query.aggregate q'.
Proof. intros Ha Hr. unfold Query.aggregate. now rewrite Ha, Hr. Qed.

(** ** The loops of [make_mae] *)

Lemma range_head (start stop step : Z) :
  0 < step -> start < stop ->
  range start stop step = start :: range (start + step) stop step.
Proof.
  intros Hstep Hlt. unfold range.
  replace (stop - start + step - 1) with ((stop - (start + step) + step - 1) + 1 * step)
    by lia.
  rewrite Z.div_add by lia.
  assert (H0 : 0 <= (stop - (start + step) + step - 1) / step)
    by (apply Z.div_pos; lia).
  rewrite Z2Nat.inj_add by lia.
  rewrite Nat.add_comm. simpl.
  f_equal; [lia|].
  rewrite <- seq_shift, map_map. apply map_ext. intros i. lia.
Qed.


Lemma range_sites_length (n : Z) :
  List.length (range 0 (n + 1) 1) = Z.to_nat (n + 1).
Proof.
  rewrite range_length. f_equal.
  replace (n + 1 - 0 + 1 - 1) with (n + 1) by lia. apply Z.div_1_r.
Qed.

Lemma run_partition_persists di p s :
  (forall g h, p <> HorizonMAE g h) ->
  exists s1 r mv,
    run_partition di p s = (s1, Returned r)
    /\ metric_value s1 = metric_value s ++ [mv].
Proof.
  intros Hp. destruct p as [g| |g h|g]; simpl.
  - eapply persists_one_adds, make_mae_one_gsp_persists.
  - eapply persists_one_adds, make_mae_all_gsp_persists.
  - now destruct (Hp g h).
  - eapply persists_one_adds, make_pvlive_mae_persists.
Qed.



(** With a positive [max_forecast_horizon_minutes] the invocation stops at
    the first horizon: the rows of the sites and of the aggregate are there,
    nothing else. *)
Lemma make_mae_stops_at_first_horizon di n max s :
  0 < max ->
  exists s' added,
    make_mae di n max s = (s', Raised (TypeError unexpected_keyword))
    /\ metric_value s' = metric_value s ++ added
    /\ List.length added = (Z.to_nat (n + 1) + 1)%nat.
Proof.
  intros Hmax. rewrite make_mae_partitions. unfold partitions.
  rewrite (range_head 0 max 30) by lia. simpl map.
  rewrite app_assoc.
  change ((map SiteMAE (range 0 (n + 1) 1) ++ [AllSitesMAE])
          ++ (HorizonMAE 0 0 :: map (HorizonMAE 0) (range (0 + 30) max 30))
          ++ map RevisionMAE (range 0 (n + 1) 1))
    with ((map SiteMAE (range 0 (n + 1) 1) ++ [AllSitesMAE])
          ++ HorizonMAE 0 0
             :: (map (HorizonMAE 0) (range (0 + 30) max 30)
                 ++ map RevisionMAE (range 0 (n + 1) 1))).
  destruct (for_persists_each (map SiteMAE (range 0 (n + 1) 1) ++ [AllSitesMAE])
              (run_partition di) s) as [s1 [added [Hpre [Hmv Hlen]]]].
  { intros p s0 Hp. apply run_partition_persists. intros g h ->.
    apply in_app_or in Hp. destruct Hp as [Hp|[Hp|[]]]; [|discriminate].
    apply in_map_iff in Hp. destruct Hp as [x [Hx _]]. discriminate. }
  destruct (make_mae_one_gsp_with_forecast_horizon_raises di 0 0 s1) as [s2 [Hh Hmv2]].
  exists s2, added. split.
  - eapply for_raises; [exact Hpre | exact Hh].
  - split; [now rewrite Hmv2|].
    rewrite Hlen, length_app, length_map, range_sites_length. reflexivity.
Qed.


(** * The claims *)







(** C3, on the code.  The horizon partition with no matching rows computes
    a null value and a zero count, then raises [TypeError] when it persists
    them: no row is added.  It raises on every input, with or without rows.
    (One defect with C5: the call passes [forecast_horizon_minutes], which
    the function does not take.) *)
Theorem horizon_partition_without_rows_adds_nothing :
  Query.aggregate (make_mae_one_gsp_with_forecast_horizon_query empty_session one_day 0 0)
  = (None, 0)
  /\ snd (make_mae_one_gsp_with_forecast_horizon one_day 0 0 empty_session)
     = Raised (TypeError unexpected_keyword)
  /\ metric_value (fst (make_mae_one_gsp_with_forecast_horizon one_day 0 0 empty_session))
     = []
  /\ (forall s di g h,
         snd (make_mae_one_gsp_with_forecast_horizon di g h s)
         = Raised (TypeError unexpected_keyword)
         /\ metric_value (fst (make_mae_one_gsp_with_forecast_horizon di g h s))
            = metric_value s).
Proof.
  split; [reflexivity|]. split; [reflexivity|]. split; [reflexivity|].
  intros s di g h.
  destruct (make_mae_one_gsp_with_forecast_horizon_raises di g h s) as [s' [H Hmv]].
  rewrite H. split; [reflexivity | exact Hmv].
Qed.

(** The other three partitions do what C3 says: without matching rows they
    return a null value and a zero count and add a row that carries them. *)
Lemma partition_without_rows_persists_null di s :
  (forall g, Query.rows (make_mae_one_gsp_query s di g) = [] ->
             persists_one (make_mae_one_gsp di g) s (None, 0) "Daily Latest MAE" (Some g))
  /\ (Query.rows (make_mae_all_gsp_query s di) = [] ->
      persists_one (make_mae_all_gsp di) s (None, 0) "Daily Latest MAE All GSPs" None)
  /\ (forall g, Query.rows (make_pvlive_mae_query s di g) = [] ->
                persists_one (make_pvlive_mae di g) s (None, 0) "PVLive MAE" (Some g)).
Proof.
  split; [|split].
  - intros g H. generalize (make_mae_one_gsp_persists di g s).
    unfold Query.aggregate. now rewrite H.
  - intros H. generalize (make_mae_all_gsp_persists di s).
    unfold Query.aggregate. now rewrite H.
  - intros g H. generalize (make_pvlive_mae_persists di g s).
    unfold Query.aggregate. now rewrite H.
Qed.

(** C4.  A ground truth row whose value [v] fails [v + 1 > v] is left out of
    the all-sites MAE: no aggregated row carries it, and the value and the
    count are what they are on the session without such rows. *)
Theorem make_mae_all_gsp_excludes_nan_rows
  (s : Session) (di : DatetimeInterval.t) (y : GSPYieldSQL.t) :
  fgt (fadd (GSPYieldSQL.solar_generation_kw y) (FNum 1))
      (GSPYieldSQL.solar_generation_kw y) = false ->
  (forall r, In r (Query.rows (make_mae_all_gsp_query s di)) -> yield_of r <> y)
  /\ ~ In y (gsp_yield (without_nan_yields s))
  /\ snd (make_mae_all_gsp di (without_nan_yields s)) = snd (make_mae_all_gsp di s).
Proof.
  intros Hy. split; [|split].
  - intros r Hr Heq. apply rows_make_mae_all_gsp_query in Hr.
    destruct Hr as [_ [_ [_ [_ [Hv _]]]]]. unfold non_nan in Hv.
    rewrite Heq in Hv. congruence.
  - unfold without_nan_yields. simpl. rewrite filter_In. unfold non_nan.
    intros [_ Hv]. congruence.
  - destruct (make_mae_all_gsp_persists di (without_nan_yields s))
      as [s1 [mv1 [H1 _]]].
    destruct (make_mae_all_gsp_persists di s) as [s2 [mv2 [H2 _]]].
    rewrite H1, H2. simpl. f_equal.
    apply aggregate_rows; [reflexivity | apply rows_all_gsp_without_nan_yields].
Qed.

Lemma make_mae_all_gsp_excludes_nan_rows_witness :
  let y := GSPYieldSQL.mk 2 60 FNaN "day-after" 1 in
  fgt (fadd (GSPYieldSQL.solar_generation_kw y) (FNum 1))
      (GSPYieldSQL.solar_generation_kw y) = false
  /\ ((forall r, In r (Query.rows (make_mae_all_gsp_query nan_session one_day)) ->
                 yield_of r <> y)
      /\ ~ In y (gsp_yield (without_nan_yields nan_session))
      /\ snd (make_mae_all_gsp one_day (without_nan_yields nan_session))
         = snd (make_mae_all_gsp one_day nan_session)).
Proof.
  intros y. split; [reflexivity|].
  exact (make_mae_all_gsp_excludes_nan_rows nan_session one_day y eq_refl).
Defined.

(** On [nan_session] the NaN reading of minute 60 is in the table and the
    aggregate is over the reading of minute 30 alone. *)
Example make_mae_all_gsp_nan_session :
  In (GSPYieldSQL.mk 2 60 FNaN "day-after" 1) (gsp_yield nan_session)
  /\ snd (make_mae_all_gsp one_day nan_session) = Returned (Some (FNum 0), 1).
Proof. split; [simpl; tauto | reflexivity]. Qed.

(** C5, on the code.  With 6 sites and a maximum horizon of 480 minutes the
    invocation adds 8 rows (7 sites, 1 aggregate) and then raises
    [TypeError] at the first horizon; the 16 horizon rows and the 7 revision
    rows of the 31 are never added. *)
Theorem make_mae_six_sites_adds_eight_rows (s : Session) (di : DatetimeInterval.t) :
  List.length (partitions 6 480) = 31%nat
  /\ exists s' added,
       make_mae di 6 480 s = (s', Raised (TypeError unexpected_keyword))
       /\ metric_value s' = metric_value s ++ added
       /\ List.length added = 8%nat.
Proof.
  split; [reflexivity|].
  destruct (make_mae_stops_at_first_horizon di 6 480 s) as [s' [added [H [Hmv Hlen]]]];
    [lia|].
  exists s', added. repeat split; assumption.
Qed.

(** C6.  The expression under [func.avg] is
    [abs(forecast MW - ground truth kW / 1000)] on every row of the queries
    built from [make_mae_query]; on finite values it is the absolute value
    of [MW - kW / 1000], and it is exactly 0 for 1 MW against 1000 kW: the
    MAE of [unit_session], whose one matched pair is that one, is 0. *)
Theorem make_mae_query_divides_kw_by_1000 :
  (forall (M : Type) (model : ForecastModel M) (s : Session) (f : M) (y : GSPYieldSQL.t),
      Query.avg_of (make_mae_query s M) (f, y)
      = fabs (fsub (expected_power_generation_megawatts f)
                   (fdiv (GSPYieldSQL.solar_generation_kw y) (FNum 1000))))
  /\ (forall s di g r,
         Query.avg_of (make_mae_one_gsp_query s di g) r
         = absolute_error
             (ForecastValueLatestSQL.expected_power_generation_megawatts (forecast_of r))
             (GSPYieldSQL.solar_generation_kw (yield_of r)))
  /\ (forall s di r,
         Query.avg_of (make_mae_all_gsp_query s di) r
         = absolute_error
             (ForecastValueLatestSQL.expected_power_generation_megawatts (forecast_of r))
             (GSPYieldSQL.solar_generation_kw (yield_of r)))
  /\ (forall s di g h r,
         Query.avg_of (make_mae_one_gsp_with_forecast_horizon_query s di g h) r
         = absolute_error
             (ForecastValueSQL.expected_power_generation_megawatts (fst r))
             (GSPYieldSQL.solar_generation_kw (snd r)))
  /\ (forall a b : Q,
         exists c, absolute_error (FNum a) (FNum b) = FNum c
                   /\ (c == Qabs (a - b / 1000))%Q)
  /\ absolute_error (FNum 1) (FNum 1000) = FNum 0
  /\ snd (make_mae_one_gsp one_day 1 unit_session) = Returned (Some (FNum 0), 1).
Proof.
  repeat split.
  apply absolute_error_finite.
Qed.

(** C7, as the code has it.  When at least one timestamp is matched and the
    in-day and the day-after value are the same finite number at every
    matched timestamp, [make_pvlive_mae] returns exactly 0 and the number of
    matched timestamps. *)
Theorem make_pvlive_mae_identical_values
  (s : Session) (di : DatetimeInterval.t) (g : Z) :
  matched_timestamps s di g <> [] ->
  (forall day_after in_day,
      In (day_after, in_day) (matched_timestamps s di g) ->
      GSPYieldSQL.solar_generation_kw day_after = GSPYieldSQL.solar_generation_kw in_day
      /\ is_finite (GSPYieldSQL.solar_generation_kw day_after) = true) ->
  snd (make_pvlive_mae di g s)
  = Returned (Some (FNum 0), Z.of_nat (List.length (matched_timestamps s di g))).
Proof.
  intros Hne Hsame.
  destruct (make_pvlive_mae_persists di g s) as [s' [mv [H _]]].
  rewrite H. simpl. f_equal. unfold Query.aggregate.
  rewrite rows_make_pvlive_mae_query. f_equal.
  apply favg_zeros.
  - destruct (matched_timestamps s di g); [congruence | discriminate].
  - intros x Hx. apply in_map_iff in Hx. destruct Hx as [[a b] [Hx Hab]].
    destruct (Hsame a b Hab) as [Heq Hfin]. subst x. simpl.
    rewrite <- Heq. destruct (GSPYieldSQL.solar_generation_kw a) as [| |q];
      try discriminate.
    rewrite fdiv_finite, fsub_finite_self. reflexivity.
Qed.

(** Site 1 with the same finite readings at minutes 30 and 60 in both
    regimes. *)
Lemma make_pvlive_mae_identical_values_witness :
  let s :=
    mkSession [] []
      [GSPYieldSQL.mk 1 30 (FNum 1000) "day-after" 1;
       GSPYieldSQL.mk 2 60 (FNum 2500) "day-after" 1;
       GSPYieldSQL.mk 3 30 (FNum 1000) "in-day" 1;
       GSPYieldSQL.mk 4 60 (FNum 2500) "in-day" 1]
      [LocationSQL.mk 1 1] [] [] [] in
  matched_timestamps s one_day 1 <> []
  /\ (forall day_after in_day,
         In (day_after, in_day) (matched_timestamps s one_day 1) ->
         GSPYieldSQL.solar_generation_kw day_after
         = GSPYieldSQL.solar_generation_kw in_day
         /\ is_finite (GSPYieldSQL.solar_generation_kw day_after) = true)
  /\ snd (make_pvlive_mae one_day 1 s) = Returned (Some (FNum 0), 2).
Proof.
  intros s.
  assert (H1 : matched_timestamps s one_day 1 <> []) by (vm_compute; discriminate).
  assert (H2 : forall day_after in_day,
             In (day_after, in_day) (matched_timestamps s one_day 1) ->
             GSPYieldSQL.solar_generation_kw day_after
             = GSPYieldSQL.solar_generation_kw in_day
             /\ is_finite (GSPYieldSQL.solar_generation_kw day_after) = true).
  { intros a b Hin. vm_compute in Hin.
    destruct Hin as [Hin|[Hin|[]]]; inversion Hin; subst; split; reflexivity. }
  split; [exact H1|]. split; [exact H2|].
  exact (make_pvlive_mae_identical_values s one_day 1 H1 H2).
Defined.

(** C7 as stated fails twice.  Without any matched timestamp the values are
    (vacuously) identical and the MAE is null, not 0; and when the identical
    values are NaN the MAE is NaN. *)
Lemma make_pvlive_mae_identical_values_not_zero :
  ((forall day_after in_day,
       In (day_after, in_day) (matched_timestamps empty_session one_day 0) ->
       GSPYieldSQL.solar_generation_kw day_after
       = GSPYieldSQL.solar_generation_kw in_day)
   /\ snd (make_pvlive_mae one_day 0 empty_session) = Returned (None, 0)
   /\ snd (make_pvlive_mae one_day 0 empty_session)
      <> Returned (Some (FNum 0),
                   Z.of_nat (List.length (matched_timestamps empty_session one_day 0))))
  /\ ((forall day_after in_day,
          In (day_after, in_day) (matched_timestamps nan_session one_day 1) ->
          GSPYieldSQL.solar_generation_kw day_after
          = GSPYieldSQL.solar_generation_kw in_day)
      /\ snd (make_pvlive_mae one_day 1 nan_session) = Returned (Some FNaN, 2)
      /\ snd (make_pvlive_mae one_day 1 nan_session)
         <> Returned (Some (FNum 0),
                      Z.of_nat (List.length (matched_timestamps nan_session one_day 1)))).
Proof.
  split; (split; [|split; [reflexivity | vm_compute; discriminate]]).
  - intros a b [].
  - intros a b Hin. vm_compute in Hin.
    destruct Hin as [Hin|[Hin|[]]]; inversion Hin; reflexivity.
Qed.

(** C8.  No row of site 0 enters the all-sites MAE, neither through its
    location (the ground truth side) nor through its forecast; the result is
    what it is on the session without the forecasts and the location of site
    0; and the row that [make_mae_all_gsp] adds has no location. *)
Theorem make_mae_all_gsp_excludes_national (s : Session) (di : DatetimeInterval.t) :
  (forall r,
      In r (Query.rows (make_mae_all_gsp_query s di)) ->
      LocationSQL.gsp_id (location_of r) <> 0
      /\ ForecastValueLatestSQL.gsp_id (forecast_of r) <> 0)
  /\ Query.aggregate (make_mae_all_gsp_query (without_national s) di)
     = Query.aggregate (make_mae_all_gsp_query s di)
  /\ exists s' mv,
       make_mae_all_gsp di s = (s', Returned (Query.aggregate (make_mae_all_gsp_query s di)))
       /\ metric_value s' = metric_value s ++ [mv]
       /\ MetricValueSQL.value mv = fst (Query.aggregate (make_mae_all_gsp_query s di))
       /\ MetricValueSQL.number_of_data_points mv
          = snd (Query.aggregate (make_mae_all_gsp_query s di))
       /\ MetricValueSQL.location mv = None.
Proof.
  split; [|split].
  - intros r Hr. apply rows_make_mae_all_gsp_query in Hr. tauto.
  - apply aggregate_rows; [reflexivity | apply rows_all_gsp_without_national].
  - destruct (make_mae_all_gsp_persists di s)
      as [s' [mv [H [Hmv [Hv [Hn [_ [Hl _]]]]]]]].
    exists s', mv. repeat split; try assumption.
    now destruct (MetricValueSQL.location mv).
Qed.




(** C10.  [make_mae_one_gsp] and [make_pvlive_mae] have no condition on the
    ground truth value: every joined row of the site in the interval is
    averaged and counted, whether or not [value + 1 > value] holds for it.
    [make_mae_all_gsp] has the same conditions and [value + 1 > value] on
    top. *)
Theorem only_make_mae_all_gsp_filters_nan
  (s : Session) (di : DatetimeInterval.t) (g : Z) :
  ((forall r,
       In r (Query.rows (make_mae_one_gsp_query s di g)) <->
       In r (latest_joined s)
       /\ LocationSQL.gsp_id (location_of r) = g
       /\ ForecastValueLatestSQL.gsp_id (forecast_of r) = g
       /\ DatetimeInterval.start_datetime_utc di <= GSPYieldSQL.datetime_utc (yield_of r)
       /\ GSPYieldSQL.datetime_utc (yield_of r) <= DatetimeInterval.end_datetime_utc di
       /\ GSPYieldSQL.datetime_utc (yield_of r)
          = ForecastValueLatestSQL.target_time (forecast_of r)
       /\ GSPYieldSQL.regime (yield_of r) = "day-after"%string)
   /\ snd (make_mae_one_gsp di g s)
      = Returned
          (favg (map (Query.avg_of (make_mae_one_gsp_query s di g))
                     (Query.rows (make_mae_one_gsp_query s di g))),
           Z.of_nat (List.length (Query.rows (make_mae_one_gsp_query s di g)))))
  /\ ((forall day_after in_day,
          In (day_after, in_day) (Query.rows (make_pvlive_mae_query s di g)) <->
          In day_after (make_pvlive_subquery s di g "day-after")
          /\ In in_day (make_pvlive_subquery s di g "in-day")
          /\ GSPYieldSQL.datetime_utc day_after = GSPYieldSQL.datetime_utc in_day)
      /\ snd (make_pvlive_mae di g s)
         = Returned
             (favg (map (Query.avg_of (make_pvlive_mae_query s di g))
                        (Query.rows (make_pvlive_mae_query s di g))),
              Z.of_nat (List.length (Query.rows (make_pvlive_mae_query s di g)))))
  /\ (forall r,
         In r (Query.rows (make_mae_all_gsp_query s di)) <->
         In r (latest_joined s)
         /\ LocationSQL.gsp_id (location_of r) <> 0
         /\ ForecastValueLatestSQL.gsp_id (forecast_of r) <> 0
         /\ ForecastValueLatestSQL.gsp_id (forecast_of r) = LocationSQL.gsp_id (location_of r)
         /\ fgt (fadd (GSPYieldSQL.solar_generation_kw (yield_of r)) (FNum 1))
                (GSPYieldSQL.solar_generation_kw (yield_of r)) = true
         /\ DatetimeInterval.start_datetime_utc di <= GSPYieldSQL.datetime_utc (yield_of r)
         /\ GSPYieldSQL.datetime_utc (yield_of r) <= DatetimeInterval.end_datetime_utc di
         /\ GSPYieldSQL.datetime_utc (yield_of r)
            = ForecastValueLatestSQL.target_time (forecast_of r)
         /\ GSPYieldSQL.regime (yield_of r) = "day-after"%string).
Proof.
  split; [|split].
  - split; [apply rows_make_mae_one_gsp_query|].
    destruct (make_mae_one_gsp_persists di g s) as [s' [mv [H _]]]. now rewrite H.
  - split.
    + intros a b. rewrite rows_make_pvlive_mae_query. unfold matched_timestamps.
      rewrite in_inner_join, Z.eqb_eq. tauto.
    + destruct (make_pvlive_mae_persists di g s) as [s' [mv [H _]]]. now rewrite H.
  - apply rows_make_mae_all_gsp_query.
Qed.

(** On [nan_session] the NaN reading of minute 60 is averaged and counted by
    [make_mae_one_gsp] and [make_pvlive_mae], and left out by
    [make_mae_all_gsp]. *)
Example nan_reading_per_partition :
  snd (make_mae_one_gsp one_day 1 nan_session) = Returned (Some FNaN, 2)
  /\ snd (make_pvlive_mae one_day 1 nan_session) = Returned (Some FNaN, 2)
  /\ snd (make_mae_all_gsp one_day nan_session) = Returned (Some (FNum 0), 1).
Proof. repeat split. Qed.


(** * Further properties *)

(** ** What the functions leave alone *)

Lemma only_appends_refl s : only_appends s s.
Proof.
  unfold only_appends. repeat split; try reflexivity;
    exists []; now rewrite app_nil_r.
Qed.

Lemma only_appends_trans s1 s2 s3 :
  only_appends s1 s2 -> only_appends s2 s3 -> only_appends s1 s3.
Proof.
  intros (A1 & A2 & A3 & [l1 A4] & [m1 A5] & [d1 A6] & [v1 A7])
         (B1 & B2 & B3 & [l2 B4] & [m2 B5] & [d2 B6] & [v2 B7]).
  unfold only_appends. repeat split; try congruence.
  - exists (l1 ++ l2). now rewrite B4, A4, app_assoc.
  - exists (m1 ++ m2). now rewrite B5, A5, app_assoc.
  - exists (d1 ++ d2). now rewrite B6, A6, app_assoc.
  - exists (v1 ++ v2). now rewrite B7, A7, app_assoc.
Qed.

Lemma bind_only_appends {A B} (c : Py A) (k : A -> Py B) :
  (forall s, only_appends s (fst (c s))) ->
  (forall a s, only_appends s (fst (k a s))) ->
  forall s, only_appends s (fst (bind c k s)).
Proof.
  intros Hc Hk s. unfold bind. specialize (Hc s).
  destruct (c s) as [s1 [a|e]]; simpl in *.
  - eapply only_appends_trans; [exact Hc | apply Hk].
  - exact Hc.
Qed.

Lemma for_only_appends {X A} (l : list X) (body : X -> Py A) :
  (forall x s, only_appends s (fst (body x s))) ->
  forall s, only_appends s (fst (for_ l body s)).
Proof.
  intros Hb. induction l as [|x l IH]; intros s; simpl.
  - apply only_appends_refl.
  - apply bind_only_appends; [apply Hb | intros _; apply IH].
Qed.

Lemma get_location_only_appends g s : only_appends s (fst (get_location g s)).
Proof.
  unfold get_location.
  destruct (filter (fun l => LocationSQL.gsp_id l =? g) (location s)); simpl.
  - unfold only_appends. simpl. repeat split; try (exists []; now rewrite app_nil_r).
    now eexists.
  - apply only_appends_refl.
Qed.

Lemma get_metric_only_appends name s : only_appends s (fst (get_metric name s)).
Proof.
  unfold get_metric.
  destruct (filter (fun m => String.eqb (Metric.name m) name) (metric s)); simpl.
  - unfold only_appends. simpl. repeat split; try (exists []; now rewrite app_nil_r).
    now eexists.
  - apply only_appends_refl.
Qed.

Lemma get_datetime_interval_only_appends a b s :
  only_appends s (fst (get_datetime_interval a b s)).
Proof.
  unfold get_datetime_interval.
  destruct (filter (DatetimeInterval_eqb (DatetimeInterval.mk a b)) (datetime_interval s));
    simpl.
  - unfold only_appends. simpl. repeat split; try (exists []; now rewrite app_nil_r).
    now eexists.
  - apply only_appends_refl.
Qed.

Lemma session_add_only_appends mv s : only_appends s (fst (session_add mv s)).
Proof.
  unfold session_add, only_appends. simpl.
  repeat split; try (exists []; now rewrite app_nil_r). now eexists.
Qed.

Lemma save_only_appends call s :
  only_appends s (fst (save_metric_value_to_database call s)).
Proof.
  unfold save_metric_value_to_database.
  destruct (SaveCall.forecast_horizon_minutes call).
  - apply only_appends_refl.
  - revert s. apply bind_only_appends; [apply get_metric_only_appends|].
    intros m. apply bind_only_appends; [apply get_datetime_interval_only_appends|].
    intros d s. apply session_add_only_appends.
Qed.

Lemma ret_only_appends {A} (a : A) s : only_appends s (fst (ret a s)).
Proof. apply only_appends_refl. Qed.

Lemma run_partition_only_appends di p s : only_appends s (fst (run_partition di p s)).
Proof.
  revert s. destruct p as [g| |g h|g]; simpl.
  - unfold make_mae_one_gsp.
    apply bind_only_appends; [intros s; apply only_appends_refl|]. intros session.
    apply bind_only_appends; [intros s; apply only_appends_refl|]. intros row.
    apply bind_only_appends; [apply get_location_only_appends|]. intros l.
    apply bind_only_appends; [apply save_only_appends|]. intros _ s.
    apply only_appends_refl.
  - unfold make_mae_all_gsp.
    apply bind_only_appends; [intros s; apply only_appends_refl|]. intros session.
    apply bind_only_appends; [intros s; apply only_appends_refl|]. intros row.
    apply bind_only_appends; [apply save_only_appends|]. intros _ s.
    apply only_appends_refl.
  - unfold make_mae_one_gsp_with_forecast_horizon, make_mae_one_gsp_with_forecast_horizon_call.
    apply bind_only_appends.
    + apply bind_only_appends; [intros s; apply only_appends_refl|]. intros session.
      apply bind_only_appends; [intros s; apply only_appends_refl|]. intros row.
      apply bind_only_appends; [apply get_location_only_appends|]. intros l s.
      apply only_appends_refl.
    + intros call. apply bind_only_appends; [apply save_only_appends|]. intros _ s.
      apply only_appends_refl.
  - unfold make_pvlive_mae.
    apply bind_only_appends; [intros s; apply only_appends_refl|]. intros session.
    apply bind_only_appends; [intros s; apply only_appends_refl|]. intros row.
    apply bind_only_appends; [apply get_location_only_appends|]. intros l.
    apply bind_only_appends; [apply save_only_appends|]. intros _ s.
    apply only_appends_refl.
Qed.

(** X1.  Whatever it is given and whether it returns or raises, [make_mae]
    leaves the forecast tables and the ground truth table as they were and
    only adds rows at the end of the other tables: no row that was there is
    changed or removed. *)
Theorem make_mae_only_appends
  (di : DatetimeInterval.t) (n max : Z) (s : Session) :
  only_appends s (fst (make_mae di n max s)).
Proof.
  rewrite make_mae_partitions.
  apply for_only_appends. apply run_partition_only_appends.
Qed.

(** ** The row of each partition *)

Lemma run_partition_row di p s :
  (forall g h, p <> HorizonMAE g h) ->
  exists s' r mv,
    run_partition di p s = (s', Returned r)
    /\ metric_value s' = metric_value s ++ [mv]
    /\ row_of di p mv
    /\ MetricValueSQL.value mv = fst r
    /\ MetricValueSQL.number_of_data_points mv = snd r.
Proof.
  intros Hp. destruct p as [g| |g h|g]; simpl run_partition.
  - unfold make_mae_one_gsp.
    unfold get_session at 1. unfold bind at 1. simpl first_row.
    unfold ret at 1. unfold bind at 1.
    destruct (get_location_spec g s) as [s1 [l [Hl [Hg Hmv1]]]].
    rewrite (bind_returned _ _ _ _ _ Hl).
    match goal with |- context [save_metric_value_to_database ?c] =>
      destruct (save_metric_value_to_database_spec c s1 eq_refl) as [s2 [m [Hs [Hn Hmv2]]]]
    end.
    rewrite (bind_returned _ _ _ _ _ Hs).
    eexists _, _, _. split; [reflexivity|].
    split; [rewrite Hmv2, Hmv1; reflexivity|].
    unfold row_of. simpl. rewrite Hg. repeat split. exact Hn.
  - unfold make_mae_all_gsp.
    unfold get_session at 1. unfold bind at 1. simpl first_row.
    unfold ret at 1. unfold bind at 1.
    match goal with |- context [save_metric_value_to_database ?c] =>
      destruct (save_metric_value_to_database_spec c s eq_refl) as [s2 [m [Hs [Hn Hmv2]]]]
    end.
    rewrite (bind_returned _ _ _ _ _ Hs).
    eexists _, _, _. split; [reflexivity|].
    split; [rewrite Hmv2; reflexivity|].
    unfold row_of. simpl. repeat split. exact Hn.
  - now destruct (Hp g h).
  - unfold make_pvlive_mae.
    unfold get_session at 1. unfold bind at 1. simpl first_row.
    unfold ret at 1. unfold bind at 1.
    destruct (get_location_spec g s) as [s1 [l [Hl [Hg Hmv1]]]].
    rewrite (bind_returned _ _ _ _ _ Hl).
    match goal with |- context [save_metric_value_to_database ?c] =>
      destruct (save_metric_value_to_database_spec c s1 eq_refl) as [s2 [m [Hs [Hn Hmv2]]]]
    end.
    rewrite (bind_returned _ _ _ _ _ Hs).
    eexists _, _, _. split; [reflexivity|].
    split; [rewrite Hmv2, Hmv1; reflexivity|].
    unfold row_of. simpl. rewrite Hg. repeat split. exact Hn.
Qed.








(** ** What a query does not look at *)

Lemma from_make_mae_one_gsp_query s di g :
  Query.from_ (make_mae_one_gsp_query s di g) = latest_joined s.
Proof. reflexivity. Qed.

Lemma where_make_mae_one_gsp_query s s' di g :
  Query.where_ (make_mae_one_gsp_query s di g)
  = Query.where_ (make_mae_one_gsp_query s' di g).
Proof. reflexivity. Qed.

Lemma latest_joined_only_site g s :
  latest_joined (only_site g s)
  = filter (fun r => ForecastValueLatestSQL.gsp_id (forecast_of r) =? g)
      (filter (fun r => LocationSQL.gsp_id (location_of r) =? g) (latest_joined s)).
Proof.
  unfold latest_joined, only_site. simpl.
  rewrite list_prod_filter_l, inner_join_filter_l, inner_join_filter_r.
  reflexivity.
Qed.

Lemma latest_joined_only_day_after s :
  latest_joined (only_day_after s)
  = filter (fun r => String.eqb (GSPYieldSQL.regime (yield_of r)) "day-after")
           (latest_joined s).
Proof.
  unfold latest_joined, only_day_after. simpl.
  now rewrite list_prod_filter_r, inner_join_filter_l.
Qed.

Lemma returned_make_mae_one_gsp di g s :
  snd (make_mae_one_gsp di g s)
  = Returned (Query.aggregate (make_mae_one_gsp_query s di g)).
Proof.
  destruct (make_mae_one_gsp_persists di g s) as [s' [mv [H _]]]. now rewrite H.
Qed.

Lemma returned_make_mae_all_gsp di s :
  snd (make_mae_all_gsp di s)
  = Returned (Query.aggregate (make_mae_all_gsp_query s di)).
Proof.
  destruct (make_mae_all_gsp_persists di s) as [s' [mv [H _]]]. now rewrite H.
Qed.

Lemma returned_make_pvlive_mae di g s :
  snd (make_pvlive_mae di g s)
  = Returned (Query.aggregate (make_pvlive_mae_query s di g)).
Proof.
  destruct (make_pvlive_mae_persists di g s) as [s' [mv [H _]]]. now rewrite H.
Qed.

(** X4.  The MAE of one site does not depend on the other sites: the result
    of [make_mae_one_gsp] for site [g] is the same on the session that keeps
    only the latest forecasts and the locations of [g]. *)
Theorem make_mae_one_gsp_ignores_other_sites
  (s : Session) (di : DatetimeInterval.t) (g : Z) :
  snd (make_mae_one_gsp di g (only_site g s)) = snd (make_mae_one_gsp di g s).
Proof.
  rewrite !returned_make_mae_one_gsp. f_equal.
  apply aggregate_rows; [reflexivity|].
  unfold Query.rows.
  rewrite !from_make_mae_one_gsp_query, (where_make_mae_one_gsp_query _ s).
  rewrite latest_joined_only_site.
  rewrite filter_absorb.
  - apply filter_absorb. intros r H. simpl in H.
    apply andb_true_iff in H. tauto.
  - intros r H. simpl in H.
    apply andb_true_iff in H. destruct H as [_ H].
    apply andb_true_iff in H. tauto.
Qed.

(** X5.  The current-forecast MAE reads only the day-after ground truth: the
    results of [make_mae_one_gsp] and of [make_mae_all_gsp] are the same on
    the session without the readings of any other regime. *)
Theorem current_forecast_mae_ignores_other_regimes
  (s : Session) (di : DatetimeInterval.t) (g : Z) :
  snd (make_mae_one_gsp di g (only_day_after s)) = snd (make_mae_one_gsp di g s)
  /\ snd (make_mae_all_gsp di (only_day_after s)) = snd (make_mae_all_gsp di s).
Proof.
  split.
  - rewrite !returned_make_mae_one_gsp. f_equal.
    apply aggregate_rows; [reflexivity|].
    unfold Query.rows.
    rewrite !from_make_mae_one_gsp_query, (where_make_mae_one_gsp_query _ s).
    rewrite latest_joined_only_day_after.
    apply filter_absorb. intros r H. simpl in H. split_andb. assumption.
  - rewrite !returned_make_mae_all_gsp. f_equal.
    apply aggregate_rows; [reflexivity|].
    unfold Query.rows.
    rewrite !from_make_mae_all_gsp_query, (where_make_mae_all_gsp_query _ s).
    rewrite latest_joined_only_day_after.
    apply filter_absorb. intros r H. simpl in H. split_andb. assumption.
Qed.

(** X6.  The all-sites MAE pools the per-site rows: a joined row is
    aggregated by [make_mae_all_gsp] exactly when it is aggregated by
    [make_mae_one_gsp] for some site other than 0 and its ground truth
    passes [value + 1 > value]. *)
Theorem make_mae_all_gsp_pools_site_rows
  (s : Session) (di : DatetimeInterval.t) (r : Joined ForecastValueLatestSQL.t) :
  In r (Query.rows (make_mae_all_gsp_query s di)) <->
  exists g,
    g <> 0
    /\ In r (Query.rows (make_mae_one_gsp_query s di g))
    /\ fgt (fadd (GSPYieldSQL.solar_generation_kw (yield_of r)) (FNum 1))
           (GSPYieldSQL.solar_generation_kw (yield_of r)) = true.
Proof.
  rewrite rows_make_mae_all_gsp_query. unfold non_nan. split.
  - intros (H1 & H2 & H3 & H4 & H5 & H6).
    exists (LocationSQL.gsp_id (location_of r)).
    rewrite rows_make_mae_one_gsp_query. tauto.
  - intros (g & Hg & Hr & Hv). apply rows_make_mae_one_gsp_query in Hr.
    destruct Hr as (H1 & H2 & H3 & H4). rewrite H2, H3. tauto.
Qed.

(** ** The value and the count *)



Lemma fabs_not_negative (x : Float) : not_negative (fabs x).
Proof.
  destruct x as [|b|q]; simpl; try easy.
  unfold not_negative, fabs. rewrite Qred_correct. apply Qabs_nonneg.
Qed.

Lemma fadd_not_negative (x y : Float) :
  not_negative x -> not_negative y -> not_negative (fadd x y).
Proof.
  destruct x as [|b|a], y as [|b'|a']; unfold not_negative, fadd; try easy.
  - intros -> ->. reflexivity.
  - intros Ha Ha'. rewrite Qred_correct.
    replace 0%Q with (0 + 0)%Q by reflexivity. now apply Qplus_le_compat.
Qed.

Lemma fold_fadd_not_negative (l : list Float) (acc : Float) :
  not_negative acc -> (forall x, In x l -> not_negative x) ->
  not_negative (fold_left fadd l acc).
Proof.
  revert acc. induction l as [|x l IH]; intros acc Hacc Hl; simpl; [assumption|].
  apply IH.
  - apply fadd_not_negative; [assumption | apply Hl; now left].
  - intros y Hy. apply Hl. now right.
Qed.

Lemma fdiv_count_not_negative (x : Float) (n : nat) :
  not_negative x -> not_negative (fdiv x (FNum (inject_Z (Z.of_nat (S n))))).
Proof.
  assert (Hpos : (0 < inject_Z (Z.of_nat (S n)))%Q).
  { unfold Qlt. simpl. lia. }
  assert (Hne : Qeq_bool (inject_Z (Z.of_nat (S n))) 0 = false).
  { destruct (Qeq_bool (inject_Z (Z.of_nat (S n))) 0) eqn:E; [|reflexivity].
    apply Qeq_bool_eq in E. rewrite E in Hpos. now apply Qlt_irrefl in Hpos. }
  destruct x as [|b|a]; unfold fdiv; rewrite ?Hne; unfold not_negative; try easy.
  - intros ->. reflexivity.
  - intros Ha. rewrite Qred_correct. unfold Qdiv.
    apply Qmult_le_0_compat; [assumption|].
    apply Qinv_le_0_compat. now apply Qlt_le_weak.
Qed.

Lemma favg_not_negative (l : list Float) (v : Float) :
  (forall x, In x l -> not_negative x) -> favg l = Some v -> not_negative v.
Proof.
  intros Hl Hv. destruct l as [|x l]; [discriminate|].
  unfold favg in Hv. injection Hv as <-.
  change (List.length (x :: l)) with (S (List.length l)).
  apply fdiv_count_not_negative. unfold fsum.
  apply fold_fadd_not_negative; [|exact Hl].
  unfold not_negative. apply Qle_refl.
Qed.

Lemma aggregate_not_negative {R} (q : Query.t R) (v : Float) :
  (forall r, not_negative (Query.avg_of q r)) ->
  fst (Query.aggregate q) = Some v -> not_negative v.
Proof.
  intros Hq Hv. unfold Query.aggregate in Hv. simpl in Hv.
  eapply favg_not_negative; [|exact Hv].
  intros x Hx. apply in_map_iff in Hx. destruct Hx as [r [<- _]]. apply Hq.
Qed.

(** X8.  A mean absolute error is never below zero: a value that
    [make_mae_one_gsp], [make_mae_all_gsp] or [make_pvlive_mae] returns is
    NaN, plus infinity or a finite number that is at least 0, never a
    negative number and never minus infinity. *)
Theorem mean_absolute_error_not_negative
  (s : Session) (di : DatetimeInterval.t) (g : Z) (v : Float) (n : Z) :
  snd (make_mae_one_gsp di g s) = Returned (Some v, n)
  \/ snd (make_mae_all_gsp di s) = Returned (Some v, n)
  \/ snd (make_pvlive_mae di g s) = Returned (Some v, n) ->
  not_negative v.
Proof.
  intros [H|[H|H]].
  - rewrite returned_make_mae_one_gsp in H.
    apply (aggregate_not_negative (make_mae_one_gsp_query s di g)).
    + intros r. apply fabs_not_negative.
    + destruct (Query.aggregate (make_mae_one_gsp_query s di g)). simpl. congruence.
  - rewrite returned_make_mae_all_gsp in H.
    apply (aggregate_not_negative (make_mae_all_gsp_query s di)).
    + intros r. apply fabs_not_negative.
    + destruct (Query.aggregate (make_mae_all_gsp_query s di)). simpl. congruence.
  - rewrite returned_make_pvlive_mae in H.
    apply (aggregate_not_negative (make_pvlive_mae_query s di g)).
    + intros r. apply fabs_not_negative.
    + destruct (Query.aggregate (make_pvlive_mae_query s di g)). simpl. congruence.
Qed.

Lemma mean_absolute_error_not_negative_witness :
  (snd (make_mae_one_gsp one_day 1 conftest_session) = Returned (Some (FNum (3 # 2)), 2)
   \/ snd (make_mae_all_gsp one_day conftest_session) = Returned (Some (FNum (3 # 2)), 2)
   \/ snd (make_pvlive_mae one_day 1 conftest_session) = Returned (Some (FNum (3 # 2)), 2))
  /\ not_negative (FNum (3 # 2)).
Proof.
  assert (H : snd (make_mae_one_gsp one_day 1 conftest_session)
              = Returned (Some (FNum (3 # 2)), 2)
              \/ snd (make_mae_all_gsp one_day conftest_session)
                 = Returned (Some (FNum (3 # 2)), 2)
              \/ snd (make_pvlive_mae one_day 1 conftest_session)
                 = Returned (Some (FNum (3 # 2)), 2))
    by (left; reflexivity).
  split; [exact H|].
  exact (mean_absolute_error_not_negative conftest_session one_day 1 (FNum (3 # 2)) 2 H).
Defined.

(** ** When the error is zero *)












(** ** Running a partition again *)

Lemma get_metric_keeps_location name s :
  location (fst (get_metric name s)) = location s.
Proof.
  unfold get_metric.
  now destruct (filter (fun m => String.eqb (Metric.name m) name) (metric s)).
Qed.

Lemma get_datetime_interval_keeps_location a b s :
  location (fst (get_datetime_interval a b s)) = location s.
Proof.
  unfold get_datetime_interval.
  now destruct (filter (DatetimeInterval_eqb (DatetimeInterval.mk a b))
                       (datetime_interval s)).
Qed.

Lemma save_keeps_location call s :
  location (fst (save_metric_value_to_database call s)) = location s.
Proof.
  unfold save_metric_value_to_database.
  destruct (SaveCall.forecast_horizon_minutes call); [reflexivity|].
  unfold bind.
  pose proof (get_metric_keeps_location (Metric.name (SaveCall.metric call)) s) as H1.
  destruct (get_metric (Metric.name (SaveCall.metric call)) s) as [s1 [m|e]];
    simpl in H1; [|exact H1].
  match goal with |- context [get_datetime_interval ?a ?b s1] =>
    pose proof (get_datetime_interval_keeps_location a b s1) as H2;
    destruct (get_datetime_interval a b s1) as [s2 [d|e]]
  end; simpl in H2.
  - unfold session_add. simpl. congruence.
  - simpl. congruence.
Qed.



(** ** [save_metric_value_to_database] *)

(** X12.  A call of [save_metric_value_to_database] without the horizon
    keyword returns and adds exactly one row after the rows that were there;
    the row has the value, the count and the interval of the call and a
    metric of the name of the call's metric; it has a location exactly when
    the call has one, and then that one.  The forecast, ground truth and
    location tables are left as they were. *)
Theorem save_metric_value_to_database_adds_one_row
  (call : SaveCall.t) (s : Session) :
  SaveCall.forecast_horizon_minutes call = None ->
  exists s' mv,
    save_metric_value_to_database call s = (s', Returned tt)
    /\ metric_value s' = metric_value s ++ [mv]
    /\ MetricValueSQL.value mv = SaveCall.value call
    /\ MetricValueSQL.number_of_data_points mv = SaveCall.number_of_data_points call
    /\ Metric.name (MetricValueSQL.metric mv) = Metric.name (SaveCall.metric call)
    /\ MetricValueSQL.datetime_interval mv = SaveCall.datetime_interval call
    /\ MetricValueSQL.location mv = SaveCall.location call
    /\ MetricValueSQL.forecast_horizon_minutes mv = None
    /\ forecast_value_latest s' = forecast_value_latest s
    /\ forecast_value s' = forecast_value s
    /\ gsp_yield s' = gsp_yield s
    /\ location s' = location s.
Proof.
  intros Hh.
  destruct (save_metric_value_to_database_spec call s Hh) as [s' [m [Hs [Hn Hmv]]]].
  pose proof (save_only_appends call s) as (A1 & A2 & A3 & _).
  pose proof (save_keeps_location call s) as A4.
  rewrite Hs in A1, A2, A3, A4. simpl in A1, A2, A3, A4.
  eexists s', _. split; [exact Hs|]. split; [exact Hmv|].
  simpl. repeat split; assumption.
Qed.

Lemma save_metric_value_to_database_adds_one_row_witness :
  let call :=
    SaveCall.mk (Some (FNum (3 # 2))) 2 mae_all_gsps one_day None None in
  SaveCall.forecast_horizon_minutes call = None
  /\ exists s' mv,
       save_metric_value_to_database call conftest_session = (s', Returned tt)
       /\ metric_value s' = metric_value conftest_session ++ [mv]
       /\ MetricValueSQL.value mv = SaveCall.value call
       /\ MetricValueSQL.number_of_data_points mv = SaveCall.number_of_data_points call
       /\ Metric.name (MetricValueSQL.metric mv) = Metric.name (SaveCall.metric call)
       /\ MetricValueSQL.datetime_interval mv = SaveCall.datetime_interval call
       /\ MetricValueSQL.location mv = SaveCall.location call
       /\ MetricValueSQL.forecast_horizon_minutes mv = None
       /\ forecast_value_latest s' = forecast_value_latest conftest_session
       /\ forecast_value s' = forecast_value conftest_session
       /\ gsp_yield s' = gsp_yield conftest_session
       /\ location s' = location conftest_session.
Proof.
  intros call.
  assert (H : SaveCall.forecast_horizon_minutes call = None) by reflexivity.
  split; [exact H|].
  exact (save_metric_value_to_database_adds_one_row call conftest_session H).
Defined.

(** ** What is returned is what is stored *)


(** ** Sites without data, and NaN readings *)

Lemma no_rows_is_nil {A} (l : list A) : (forall x, ~ In x l) -> l = [].
Proof.
  destruct l as [|x l]; [reflexivity|]. intros H. destruct (H x). now left.
Qed.

(** X14.  For a site that has no location row, or no latest forecast, the
    join of [make_mae_one_gsp] is empty: it returns a null value and a zero
    count (and still adds its row). *)
Theorem make_mae_one_gsp_unknown_site
  (s : Session) (di : DatetimeInterval.t) (g : Z) :
  (forall l, In l (location s) -> LocationSQL.gsp_id l <> g)
  \/ (forall f, In f (forecast_value_latest s) -> ForecastValueLatestSQL.gsp_id f <> g) ->
  exists s' mv,
    make_mae_one_gsp di g s = (s', Returned (None, 0))
    /\ metric_value s' = metric_value s ++ [mv]
    /\ MetricValueSQL.value mv = None
    /\ MetricValueSQL.number_of_data_points mv = 0.
Proof.
  intros H.
  assert (Hrows : Query.rows (make_mae_one_gsp_query s di g) = []).
  { apply no_rows_is_nil. intros [[f y] l] Hr.
    apply rows_make_mae_one_gsp_query in Hr.
    destruct Hr as (Hin & Hl & Hf & _).
    apply in_latest_joined in Hin. destruct Hin as (Hfin & _ & Hlin & _).
    destruct H as [H|H].
    - now apply (H l Hlin).
    - now apply (H f Hfin). }
  destruct (run_partition_row di (SiteMAE g) s) as [s' [r [mv [Hrun [Hmv [_ [Hv Hn]]]]]]];
    [congruence|].
  simpl run_partition in Hrun.
  pose proof (returned_make_mae_one_gsp di g s) as E. rewrite Hrun in E. simpl in E.
  unfold Query.aggregate in E. rewrite Hrows in E. simpl in E.
  injection E as ->. simpl in Hv, Hn.
  now exists s', mv.
Qed.

Lemma make_mae_one_gsp_unknown_site_witness :
  ((forall l, In l (location conftest_session) -> LocationSQL.gsp_id l <> 17)
   \/ (forall f, In f (forecast_value_latest conftest_session) ->
                 ForecastValueLatestSQL.gsp_id f <> 17))
  /\ exists s' mv,
       make_mae_one_gsp one_day 17 conftest_session = (s', Returned (None, 0))
       /\ metric_value s' = metric_value conftest_session ++ [mv]
       /\ MetricValueSQL.value mv = None
       /\ MetricValueSQL.number_of_data_points mv = 0.
Proof.
  assert (H : (forall l, In l (location conftest_session) -> LocationSQL.gsp_id l <> 17)
              \/ (forall f, In f (forecast_value_latest conftest_session) ->
                            ForecastValueLatestSQL.gsp_id f <> 17)).
  { left. intros l Hl. vm_compute in Hl.
    repeat (destruct Hl as [<-|Hl]; [discriminate|]). destruct Hl. }
  split; [exact H|].
  exact (make_mae_one_gsp_unknown_site conftest_session one_day 17 H).
Defined.

Lemma fold_fadd_nan (l : list Float) : fold_left fadd l FNaN = FNaN.
Proof. induction l as [|x l IH]; simpl; [reflexivity | exact IH]. Qed.

Lemma fsum_nan (l : list Float) : In FNaN l -> fsum l = FNaN.
Proof.
  unfold fsum. generalize (FNum 0). induction l as [|x l IH]; intros acc Hin.
  - destruct Hin.
  - simpl. destruct Hin as [->|Hin].
    + replace (fadd acc FNaN) with FNaN by (now destruct acc as [|[|]|]).
      apply fold_fadd_nan.
    + now apply IH.
Qed.

(** X15.  [make_mae_one_gsp] does not guard against NaN: as soon as one of
    the rows it aggregates has a NaN ground truth, the MAE it returns is NaN,
    over the full count. *)
Theorem make_mae_one_gsp_nan_reading
  (s : Session) (di : DatetimeInterval.t) (g : Z) (r : Joined ForecastValueLatestSQL.t) :
  In r (Query.rows (make_mae_one_gsp_query s di g)) ->
  GSPYieldSQL.solar_generation_kw (yield_of r) = FNaN ->
  snd (make_mae_one_gsp di g s)
  = Returned (Some FNaN,
              Z.of_nat (List.length (Query.rows (make_mae_one_gsp_query s di g)))).
Proof.
  intros Hr Hnan. rewrite returned_make_mae_one_gsp. unfold Query.aggregate.
  f_equal. f_equal.
  assert (Hin : In FNaN (map (Query.avg_of (make_mae_one_gsp_query s di g))
                             (Query.rows (make_mae_one_gsp_query s di g)))).
  { apply in_map_iff. exists r. split; [|exact Hr].
    simpl. unfold yield_of in Hnan. rewrite Hnan. unfold absolute_error.
    now destruct (ForecastValueLatestSQL.expected_power_generation_megawatts
                    (fst (fst r))) as [|[|]|]. }
  destruct (map (Query.avg_of (make_mae_one_gsp_query s di g))
                (Query.rows (make_mae_one_gsp_query s di g))) as [|x l] eqn:E;
    [destruct Hin|].
  unfold favg. now rewrite (fsum_nan _ Hin).
Qed.

Lemma make_mae_one_gsp_nan_reading_witness :
  let r :=
    (ForecastValueLatestSQL.mk 60 (FNum 4) 1,
     GSPYieldSQL.mk 2 60 FNaN "day-after" 1,
     LocationSQL.mk 1 1) in
  In r (Query.rows (make_mae_one_gsp_query nan_session one_day 1))
  /\ GSPYieldSQL.solar_generation_kw (yield_of r) = FNaN
  /\ snd (make_mae_one_gsp one_day 1 nan_session)
     = Returned (Some FNaN,
                 Z.of_nat (List.length
                             (Query.rows (make_mae_one_gsp_query nan_session one_day 1)))).
Proof.
  intros r.
  assert (H1 : In r (Query.rows (make_mae_one_gsp_query nan_session one_day 1)))
    by (vm_compute; tauto).
  assert (H2 : GSPYieldSQL.solar_generation_kw (yield_of r) = FNaN) by reflexivity.
  split; [exact H1|]. split; [exact H2|].
  exact (make_mae_one_gsp_nan_reading nan_session one_day 1 r H1 H2).
Defined.
